(** * PlumeScope chart generator: a shallow embedding of
    [apps/api/src/charts/generate_charts.py] and the properties of its
    specification.

    The script reads a JSON document from standard input, builds up to
    three charts with matplotlib / networkx and prints a JSON object with
    the charts as base64 data URLs.  Python values are embedded as the
    inductive type [json]; Python floats are the kernel's binary64 floats;
    exceptions are an error monad; the third-party libraries (json,
    matplotlib, networkx, networkx_mcp) are a record of functions the
    script is parametrised by. *)

From Stdlib Require Import List String Ascii Strings.Byte Bool ZArith NArith Lia.
From Stdlib Require Import DecimalString Permutation.
From Stdlib Require Import Floats.
Import ListNotations.

Set Warnings "-register-all,-inexact-float".

Local Open Scope string_scope.
Local Open Scope Z_scope.

(* ================================================================== *)
(** ** Exceptions and results *)
(* ================================================================== *)

(** The instances of Python's [Exception] the script can meet.  Every
    [except Exception] clause of the script catches all of them.
    ([KeyboardInterrupt] and [SystemExit] are not [Exception]s and are
    outside this model.) *)
Inductive exn : Type :=
| AttributeError
| TypeError
| ValueError
| OverflowError
| ZeroDivisionError
| JSONDecodeError
| UnicodeDecodeError
| LibraryError (msg : string).

(** The result of evaluating a Python expression: a value, or a raised
    exception. *)
Inductive res (A : Type) : Type :=
| Ok (a : A)
| Raise (e : exn).
Arguments Ok {A} a.
Arguments Raise {A} e.

Definition bind {A B : Type} (r : res A) (k : A -> res B) : res B :=
  match r with
  | Ok a => k a
  | Raise e => Raise e
  end.

Declare Scope py_scope.
Delimit Scope py_scope with py.
Notation "x <- r ;; k" := (bind r (fun x => k))
  (at level 61, r at next level, right associativity) : py_scope.
Local Open Scope py_scope.

(** A list comprehension [[f(x) for x in l]]: elements are evaluated left
    to right and the first exception aborts the comprehension. *)
Fixpoint comprehension {A B : Type} (f : A -> res B) (l : list A) : res (list B) :=
  match l with
  | [] => Ok []
  | x :: l' => y <- f x ;; ys <- comprehension f l' ;; Ok (y :: ys)
  end.

(* ================================================================== *)
(** ** Python values *)
(* ================================================================== *)

(** The values [json.loads] produces, which are also the values the
    script builds for [json.dumps]: [None], [bool], [int], [float], [str],
    [list] and [dict] (an association list in insertion order; [dict_get]
    reads the first binding of a key). *)
Inductive json : Type :=
| JNull
| JBool (b : bool)
| JInt (z : Z)
| JFloat (f : float)
| JStr (s : string)
| JArr (items : list json)
| JObj (fields : list (string * json)).

(** Python truthiness ([bool(v)]), as used by [not picks], [x or []] and
    [if c1:]. *)
Definition truthy (v : json) : bool :=
  match v with
  | JNull => false
  | JBool b => b
  | JInt z => negb (z =? 0)
  | JFloat f => negb (f =? 0)%float
  | JStr s => negb (String.eqb s "")
  | JArr items => match items with [] => false | _ => true end
  | JObj fields => match fields with [] => false | _ => true end
  end.

(** [a or b] *)
Definition py_or (a b : json) : json := if truthy a then a else b.

Fixpoint dict_get (key : string) (fields : list (string * json)) : option json :=
  match fields with
  | [] => None
  | (k, v) :: rest => if String.eqb k key then Some v else dict_get key rest
  end.

(** [obj.get(key, default)]: only a [dict] has the method; on any other
    value the attribute lookup raises [AttributeError]. *)
Definition py_get (obj : json) (key : string) (default : json) : res json :=
  match obj with
  | JObj fields =>
      Ok (match dict_get key fields with Some v => v | None => default end)
  | _ => Raise AttributeError
  end.

(** [float(z)] for a Python [int]: the nearest binary64 value (ties to
    even), or [OverflowError] when that would not be finite. *)
Definition float_of_int (z : Z) : res float :=
  match binary_normalize prec emax z 0 false with
  | S754_infinity _ => Raise OverflowError
  | sf => Ok (SF2Prim sf)
  end.

(** The two-argument builtin [max(a, b)]: [b] when [b > a], else [a]. *)
Definition max2 (a b : float) : float := if (a <? b)%float then b else a.

(** [max(xs)] and [min(xs)] over a list: the running best is replaced by a
    later item only when that item is strictly greater (smaller); the
    builtin raises [ValueError] on an empty sequence. *)
Definition py_max (xs : list float) : res float :=
  match xs with
  | [] => Raise ValueError
  | x :: rest => Ok (fold_left (fun best y => if (best <? y)%float then y else best) rest x)
  end.

Definition py_min (xs : list float) : res float :=
  match xs with
  | [] => Raise ValueError
  | x :: rest => Ok (fold_left (fun best y => if (y <? best)%float then y else best) rest x)
  end.

(** True division [a / b] of floats. *)
Definition py_div (a b : float) : res float :=
  if (b =? 0)%float then Raise ZeroDivisionError else Ok (a / b)%float.

(* ================================================================== *)
(** ** base64 (RFC 4648), as [base64.b64encode] computes it *)
(* ================================================================== *)

Module Base64.

Local Open Scope N_scope.

Definition alphabet : list ascii :=
  list_ascii_of_string
    "ABCDEFGHIJKLMNOPQRSTUVWXYZabcdefghijklmnopqrstuvwxyz0123456789+/".

Definition pad : ascii := "="%char.

(** The character of a 6-bit group. *)
Definition digit (n : N) : ascii := nth (N.to_nat n) alphabet pad.

(** The 6-bit group of a character, [None] outside the alphabet. *)
Definition value (c : ascii) : option N :=
  let n := N_of_ascii c in
  if (65 <=? n) && (n <=? 90) then Some (n - 65)
  else if (97 <=? n) && (n <=? 122) then Some (n - 71)
  else if (48 <=? n) && (n <=? 57) then Some (n + 4)
  else if n =? 43 then Some 62
  else if n =? 47 then Some 63
  else None.

(** Three bytes give four characters; a last group of one or two bytes
    is padded with ["="]. *)
Fixpoint b64encode (data : list byte) : string :=
  match data with
  | [] => EmptyString
  | [a] =>
      let a := Byte.to_N a in
      String (digit (a / 4))
        (String (digit (a mod 4 * 16))
           (String pad (String pad EmptyString)))
  | [a; b] =>
      let a := Byte.to_N a in
      let b := Byte.to_N b in
      String (digit (a / 4))
        (String (digit (a mod 4 * 16 + b / 16))
           (String (digit (b mod 16 * 4))
              (String pad EmptyString)))
  | a :: b :: c :: rest =>
      let a := Byte.to_N a in
      let b := Byte.to_N b in
      let c := Byte.to_N c in
      String (digit (a / 4))
        (String (digit (a mod 4 * 16 + b / 16))
           (String (digit (b mod 16 * 4 + c / 64))
              (String (digit (c mod 64))
                 (b64encode rest))))
  end.

Definition byte_of (n : N) : option byte := Byte.of_N n.

(** A strict decoder: the text is a sequence of four-character groups
    over the alphabet, only the last of which may end in one or two
    ["="].  What it accepts, [base64.b64decode] accepts with the same
    result. *)
Fixpoint b64decode (text : string) : option (list byte) :=
  match text with
  | EmptyString => Some []
  | String c0 (String c1 (String c2 (String c3 rest))) =>
      match value c0, value c1 with
      | Some v0, Some v1 =>
          if Ascii.eqb c3 pad then
            match rest with
            | EmptyString =>
                if Ascii.eqb c2 pad then
                  match byte_of (v0 * 4 + v1 / 16) with
                  | Some a => Some [a]
                  | None => None
                  end
                else
                  match value c2 with
                  | Some v2 =>
                      match byte_of (v0 * 4 + v1 / 16),
                            byte_of (v1 mod 16 * 16 + v2 / 4) with
                      | Some a, Some b => Some [a; b]
                      | _, _ => None
                      end
                  | None => None
                  end
            | _ => None
            end
          else
            match value c2, value c3 with
            | Some v2, Some v3 =>
                match byte_of (v0 * 4 + v1 / 16),
                      byte_of (v1 mod 16 * 16 + v2 / 4),
                      byte_of (v2 mod 4 * 64 + v3),
                      b64decode rest with
                | Some a, Some b, Some c, Some tail => Some (a :: b :: c :: tail)
                | _, _, _, _ => None
                end
            | _, _ => None
            end
      | _, _ => None
      end
  | _ => None
  end.

End Base64.

(* ================================================================== *)
(** ** The plotting and graph libraries *)
(* ================================================================== *)

(** An undirected [networkx.Graph] with string nodes: nodes in insertion
    order, and one weighted edge per unordered pair of nodes. *)
Record graph : Type := { nodes : list string; edges : list (string * string * float) }.

Definition empty_graph : graph := {| nodes := []; edges := [] |}.

Definition has_node (n : string) (G : graph) : bool :=
  existsb (String.eqb n) (nodes G).

Definition add_node (n : string) (G : graph) : graph :=
  if has_node n G then G else {| nodes := nodes G ++ [n]; edges := edges G |}.

Definition same_edge (u v : string) (e : string * string * float) : bool :=
  let '(a, b, _) := e in
  (String.eqb u a && String.eqb v b) || (String.eqb u b && String.eqb v a).

(** [G.add_edge(u, v, weight=w)]: adds missing end points; an edge that
    is already present keeps its place and takes the new weight. *)
Definition add_edge (u v : string) (w : float) (G : graph) : graph :=
  let G' := add_node v (add_node u G) in
  {| nodes := nodes G';
     edges :=
       if existsb (same_edge u v) (edges G')
       then map (fun e => if same_edge u v e then (fst (fst e), snd (fst e), w) else e)
                (edges G')
       else edges G' ++ [(u, v, w)] |}.

Definition layout : Type := list (string * (float * float)).

(** What the script asks matplotlib and networkx to draw on the one
    [Axes] of a figure, call by call.  Colours, transparencies and font
    sizes are constants of the script and carry no information. *)
Inductive artist : Type :=
| scatter (xs ys : list float)
| annotate (text : string) (x y : float)
| set_xscale_log
| hist (values bins : list float)
| set_xticks (ticks : list float)
| set_xlabel (text : string)
| set_ylabel (text : string)
| set_title (text : string)
| grid
| draw_networkx_nodes (G : graph) (pos : layout) (nodelist : list string) (node_size : Z)
| draw_networkx_labels (G : graph) (pos : layout)
| draw_networkx_edges (G : graph) (pos : layout)
| set_axis_off.

(** A 6x4 inch figure: the calls made on its axes, in order. *)
Definition figure : Type := list artist.

(** The libraries the script imports (lines 7-22).  [stdin_read] is
    [sys.stdin.read()] on the bytes that standard input holds: the text
    they decode to under the encoding and error handler of the stream, or
    the [UnicodeDecodeError] of the decoder.  [json_loads] is
    [json.loads]; [float_of_str] is [float] on a [str]; [repr] is [str] on
    a value that is not a [str]; [nx] says whether [import networkx]
    succeeded ([nx is not None]); [spring_layout] is
    [nx.spring_layout(G, seed=...)].  [savefig] stands for the whole
    rendering of a figure ([tight_layout], then [savefig] to PNG at 160
    dpi, lines 44-48): [plt.subplots] and the drawing calls only record
    what is to be drawn, and any failure of the backend surfaces as an
    exception of [savefig]. *)
Record pylib : Type := {
  stdin_read : list byte -> res string;
  json_loads : string -> res json;
  float_of_str : string -> res float;
  repr : json -> string;
  nx : bool;
  spring_layout : graph -> Z -> res layout;
  savefig : figure -> res (list byte)
}.

(** The optional [networkx_mcp.server] interface (lines 24-28).
    [HAS_NX_MCP] is the result of the import probe; the three functions
    act on the state of the MCP server and may raise.  When the probe
    failed the names are unbound and the script never calls them. *)
Record mcp : Type := {
  HAS_NX_MCP : bool;
  mcp_state : Type;
  mcp_init : mcp_state;
  create_graph : string -> string -> mcp_state -> res unit * mcp_state;
  add_nodes : string -> list string -> mcp_state -> res unit * mcp_state;
  add_edges : string -> list (string * string) -> mcp_state -> res unit * mcp_state
}.

(* ================================================================== *)
(** ** Conversions and iteration *)
(* ================================================================== *)

(** [float(v)] *)
Definition py_float (L : pylib) (v : json) : res float :=
  match v with
  | JFloat f => Ok f
  | JInt z => float_of_int z
  | JBool b => Ok (if b then 1 else 0)%float
  | JStr s => float_of_str L s
  | JNull | JArr _ | JObj _ => Raise TypeError
  end.

(** [str(v)] *)
Definition py_str (L : pylib) (v : json) : string :=
  match v with
  | JStr s => s
  | _ => repr L v
  end.

(** [for x in v]: the items of a list, the characters of a string, the
    keys of a dict; other values are not iterable. *)
Definition py_iter (v : json) : res (list json) :=
  match v with
  | JArr items => Ok items
  | JStr s => Ok (map (fun c => JStr (String c EmptyString)) (list_ascii_of_string s))
  | JObj fields => Ok (map (fun kv => JStr (fst kv)) fields)
  | JNull | JBool _ | JInt _ | JFloat _ => Raise TypeError
  end.

Definition is_none (v : json) : bool :=
  match v with JNull => true | _ => false end.

(* ================================================================== *)
(** ** The script *)
(* ================================================================== *)

(** Lines 33-39 of [read_input], on the text [raw] that was read.  Only
    the call of [json.loads] is inside the [try]. *)
Definition input_of_text (L : pylib) (raw : string) : res (json * json) :=
  let data :=
    match (if negb (String.eqb raw "") then json_loads L raw else Ok (JObj [])) with
    | Ok d => d
    | Raise _ => JObj []
    end in
  p <- py_get data "picks" JNull ;;
  let picks := py_or p (JArr []) in
  s <- py_get data "sites" JNull ;;
  let sites := py_or s (JArr []) in
  Ok (picks, sites).

(** [read_input] (lines 31-39), on the bytes [stdin] of standard input.
    The read of line 32 comes before the [try]: an exception of the
    decoder leaves [read_input], and [main] with it. *)
Definition read_input (L : pylib) (stdin : list byte) : res (json * json) :=
  raw <- stdin_read L stdin ;;
  input_of_text L raw.

Definition data_url_prefix : string := "data:image/png;base64,".

(** [fig_to_data_url] (lines 42-49). *)

Definition fig_to_data_url (L : pylib) (fig : figure) : res string :=
  png <- savefig L fig ;;
  Ok (data_url_prefix ++ Base64.b64encode png).

(** The dict a chart builder returns. *)
Definition descriptor (title description dataUrl : string) : json :=
  JObj [("title", JStr title); ("description", JStr description);
        ("dataUrl", JStr dataUrl)].

(** [float(p.get("cost", 0))] and [float(p.get("benefit", 0.0))] *)
Definition pick_cost (L : pylib) (p : json) : res float :=
  c <- py_get p "cost" (JInt 0) ;; py_float L c.

Definition pick_benefit (L : pylib) (p : json) : res float :=
  b <- py_get p "benefit" (JFloat 0) ;; py_float L b.

(** [max(1, float(p.get("cost", 0)))].  (Python returns the [int] 1
    where the model has the float 1.0; the two are equal as numbers and
    are drawn and divided alike.) *)
Definition pick_x (L : pylib) (p : json) : res float :=
  c <- pick_cost L p ;; Ok (max2 1 c).

Definition pick_label (L : pylib) (p : json) : res string :=
  i <- py_get p "id" (JStr "?") ;; Ok (py_str L i).

Definition benefit_vs_cost_figure (xs ys : list float) (labels : list string)
    (logx : bool) : figure :=
  ([scatter xs ys]
     ++ map (fun t => let '(x, y, lab) := t in annotate lab x y)
            (combine (combine xs ys) labels)
     ++ (if logx then [set_xscale_log] else [])
     ++ [set_xlabel "Cost (USD)"; set_ylabel "Benefit (risk reduction)";
         set_title "Benefit vs Cost of Selected Strategies"; grid])%list.

(** [chart_benefit_vs_cost] (lines 52-74). *)
Definition chart_benefit_vs_cost (L : pylib) (picks : json) : res json :=
  if negb (truthy picks) then Ok JNull
  else
    items <- py_iter picks ;;
    xs <- comprehension (pick_x L) items ;;
    ys <- comprehension (pick_benefit L) items ;;
    labels <- comprehension (pick_label L) items ;;
    hi <- py_max xs ;;
    lo <- py_min xs ;;
    ratio <- py_div hi (max2 1 lo) ;;
    url <- fig_to_data_url L
             (benefit_vs_cost_figure xs ys labels (50 <? ratio)%float) ;;
    Ok (descriptor "Benefit vs Cost"
          "Scatter plot of strategy cost vs expected risk reduction." url).

(** [float(s.get("Risk", 0.0))] *)
Definition site_risk (L : pylib) (s : json) : res float :=
  r <- py_get s "Risk" (JFloat 0) ;; py_float L r.

Definition risk_bins : list float := [0; 0.2; 0.4; 0.6; 0.8; 1]%float.

Definition risk_distribution_figure (risks : list float) : figure :=
  [hist risks risk_bins; set_xticks risk_bins; set_xlabel "Risk score";
   set_ylabel "Number of sites"; set_title "Portfolio Risk Distribution"; grid].

(** [chart_risk_distribution] (lines 77-99). *)
Definition chart_risk_distribution (L : pylib) (sites : json) : res json :=
  if negb (truthy sites) then Ok JNull
  else
    items <- py_iter sites ;;
    risks <- comprehension (site_risk L) (filter (fun s => negb (is_none s)) items) ;;
    match risks with
    | [] => Ok JNull
    | _ =>
        url <- fig_to_data_url L (risk_distribution_figure risks) ;;
        Ok (descriptor "Risk Distribution"
              "Histogram of site risk scores across the portfolio." url)
    end.

(** *** The relationship graph *)

(** Calls on the MCP server thread its state and may raise. *)
Definition mcp_io (M : mcp) (A : Type) : Type := mcp_state M -> res A * mcp_state M.

Definition mcp_ret {M : mcp} {A : Type} (r : res A) : mcp_io M A := fun st => (r, st).

Definition mcp_bind {M : mcp} {A B : Type} (c : mcp_io M A) (k : A -> mcp_io M B)
    : mcp_io M B :=
  fun st =>
    match c st with
    | (Ok a, st') => k a st'
    | (Raise e, st') => (Raise e, st')
    end.

Fixpoint mcp_for {M : mcp} {A : Type} (l : list A) (body : A -> mcp_io M unit)
    : mcp_io M unit :=
  match l with
  | [] => mcp_ret (Ok tt)
  | x :: l' => mcp_bind (body x) (fun _ => mcp_for l' body)
  end.

(** The body of the first [try] of [chart_optimization_graph] when
    [HAS_NX_MCP] holds (lines 114-120): the same structure, declared
    through the MCP server's API. *)
Definition mcp_mirror (L : pylib) (M : mcp) (picks : json) : mcp_io M unit :=
  mcp_bind (create_graph M "optimization_graph" "undirected") (fun _ =>
  mcp_bind (add_nodes M "optimization_graph" ["Budget"; "RiskReduction"]) (fun _ =>
  mcp_bind (mcp_ret (items <- py_iter picks ;; comprehension (pick_label L) items)) (fun ids =>
  mcp_bind (add_nodes M "optimization_graph" ids) (fun _ =>
  mcp_bind (mcp_ret (py_iter picks)) (fun items =>
  mcp_for items (fun p =>
    mcp_bind (mcp_ret (pick_label L p)) (fun pid =>
    add_edges M "optimization_graph" [(pid, "Budget"); (pid, "RiskReduction")]))))))).

(** One turn of the loop that fills the networkx graph (lines 130-134). *)
Definition add_pick (L : pylib) (G : graph) (p : json) : res graph :=
  pid <- pick_label L p ;;
  let G1 := add_node pid G in
  c <- py_get p "cost" (JInt 1) ;;
  cf <- py_float L c ;;
  let G2 := add_edge pid "Budget" (max2 1 (cf / 1000000)) G1 in
  b <- py_get p "benefit" (JFloat 0) ;;
  bf <- py_float L b ;;
  Ok (add_edge pid "RiskReduction" (max2 0.01 bf) G2).

Fixpoint add_picks (L : pylib) (G : graph) (items : list json) : res graph :=
  match items with
  | [] => Ok G
  | p :: rest => G' <- add_pick L G p ;; add_picks L G' rest
  end.

Definition is_hub (n : string) : bool :=
  String.eqb n "Budget" || String.eqb n "RiskReduction".

Definition optimization_graph_figure (G : graph) (pos : layout) : figure :=
  [draw_networkx_nodes G pos (filter (fun n => negb (is_hub n)) (nodes G)) 400;
   draw_networkx_nodes G pos ["Budget"; "RiskReduction"] 700;
   draw_networkx_labels G pos;
   draw_networkx_edges G pos;
   set_axis_off;
   set_title "Strategy Relationship Graph"].

(** The body of the second [try] (lines 127-148): build the graph with
    networkx, lay it out with seed 42 and draw it. *)
Definition render_graph (L : pylib) (picks : json) : res json :=
  items <- py_iter picks ;;
  G <- add_picks L (add_node "RiskReduction" (add_node "Budget" empty_graph)) items ;;
  pos <- spring_layout L G 42 ;;
  url <- fig_to_data_url L (optimization_graph_figure G pos) ;;
  Ok (descriptor "Strategy Graph"
        "Network diagram linking strategies to budget and risk-reduction hubs." url).

(** [chart_optimization_graph] (lines 102-150). *)
Definition chart_optimization_graph (L : pylib) (M : mcp) (picks : json)
    : mcp_io M json :=
  fun st =>
    if negb (truthy picks) || negb (nx L) then (Ok JNull, st)
    else
      (* try: ... except Exception: pass *)
      let st' := if HAS_NX_MCP M then snd (mcp_mirror L M picks st) else st in
      (* try: ... except Exception: return None *)
      match render_graph L picks with
      | Ok c => (Ok c, st')
      | Raise _ => (Ok JNull, st')
      end.

(** *** main *)

(** [try: c = builder(...); if c: images.append(c)  except Exception: pass] *)
Definition append_chart (images : list json) (r : res json) : list json :=
  match r with
  | Ok c => if truthy c then (images ++ [c])%list else images
  | Raise _ => images
  end.

Definition output (images : list json) (nx_mcp_used : bool) : json :=
  JObj [("images", JArr images);
        ("meta", JObj [("nx_mcp_used", JBool nx_mcp_used);
                       ("count", JInt (Z.of_nat (List.length images)))])].

(** The part of [main] after [read_input] (lines 156-179): the dict
    [out], and the state the MCP server is left in. *)
Definition build_output (L : pylib) (M : mcp) (picks sites : json)
    (st : mcp_state M) : json * mcp_state M :=
  let images := [] in
  let images := append_chart images (chart_benefit_vs_cost L picks) in
  let images := append_chart images (chart_risk_distribution L sites) in
  let '(c3, st') := chart_optimization_graph L M picks st in
  let images := append_chart images c3 in
  (output images (HAS_NX_MCP M), st').

(** How the process ends: it wrote [json.dumps(out)] to standard output
    and exited with status 0, or it died of an uncaught exception
    (traceback on standard error, status 1). *)
Inductive outcome : Type :=
| Exited (out : json)
| Crashed (e : exn).

(** [main] (lines 153-180), on the bytes [stdin] of standard input. *)
Definition main (L : pylib) (M : mcp) (stdin : list byte) : outcome :=
  match read_input L stdin with
  | Raise e => Crashed e
  | Ok (picks, sites) => Exited (fst (build_output L M picks sites (mcp_init M)))
  end.

(** Reading the output document. *)
Definition images_of (out : json) : list json :=
  match out with
  | JObj fields =>
      match dict_get "images" fields with
      | Some (JArr images) => images
      | _ => []
      end
  | _ => []
  end.

Definition meta_of (key : string) (out : json) : option json :=
  match out with
  | JObj fields =>
      match dict_get "meta" fields with
      | Some (JObj meta) => dict_get key meta
      | _ => None
      end
  | _ => None
  end.

(* ================================================================== *)
(** ** A concrete set of libraries *)
(* ================================================================== *)

(** An executable instance of [pylib] and [mcp], used to run the script
    on concrete documents.  Standard input is read as UTF-8 under the
    error handler ["strict"].  The JSON decoder covers the JSON grammar
    except for backslash escapes in strings (on which it raises where
    [json.loads] would not); numerals are rounded correctly to binary64.
    Layout and rendering are simple stand-ins for networkx and
    matplotlib. *)
Module Reference.

Definition code (c : ascii) : N := N_of_ascii c.

Definition is_space (c : ascii) : bool :=
  let n := code c in
  ((n =? 32) || (n =? 9) || (n =? 10) || (n =? 13))%N.

Fixpoint skip_space (s : list ascii) : list ascii :=
  match s with
  | c :: t => if is_space c then skip_space t else s
  | [] => []
  end.

Fixpoint starts_with (p s : list ascii) : option (list ascii) :=
  match p, s with
  | [], _ => Some s
  | a :: p', b :: s' => if Ascii.eqb a b then starts_with p' s' else None
  | _ :: _, [] => None
  end.

Definition keyword (k : string) (s : list ascii) : option (list ascii) :=
  starts_with (list_ascii_of_string k) s.

Definition digit_of (c : ascii) : option Z :=
  let n := code c in
  if ((48 <=? n) && (n <=? 57))%N then Some (Z.of_N n - 48) else None.

(** Reads a run of decimal digits onto [acc]; also counts them. *)
Fixpoint digits (s : list ascii) (acc count : Z) : Z * Z * list ascii :=
  match s with
  | c :: t =>
      match digit_of c with
      | Some d => digits t (acc * 10 + d) (count + 1)
      | None => (acc, count, s)
      end
  | [] => (acc, count, [])
  end.

(** The binary64 value nearest to [(-1)^neg * m * 10^e10], for [0 <= m]. *)
Definition float_of_decimal (neg : bool) (m e10 : Z) : float :=
  let sign (z : Z) := if neg then - z else z in
  if m =? 0 then SF2Prim (S754_zero neg)
  else if 0 <=? e10 then
    SF2Prim (binary_normalize prec emax (sign (m * 10 ^ e10)) 0 neg)
  else
    let d := 10 ^ (- e10) in
    let s := Z.max 0 (64 + Z.log2 d - Z.log2 m) in
    let n := m * 2 ^ s in
    let sticky := if n mod d =? 0 then 0 else 1 in
    SF2Prim (binary_normalize prec emax (sign (2 * (n / d) + sticky)) (- s - 1) neg).

(** A numeral of the JSON grammar: an optional minus sign, an integer
    part without leading zeros, an optional fraction and an optional
    exponent.  An [int] without fraction and exponent, a [float]
    otherwise. *)
Definition numeral (s : list ascii) : option (json * list ascii) :=
  let '(neg, s1) :=
    match keyword "-" s with Some t => (true, t) | None => (false, s) end in
  let int_part :=
    match keyword "0" s1 with
    | Some t => Some (0, t)
    | None =>
        let '(m, n, t) := digits s1 0 0 in
        if n =? 0 then None else Some (m, t)
    end in
  match int_part with
  | None => None
  | Some (m, t) =>
      let '(m1, nfrac, t1) :=
        match keyword "." t with
        | Some u =>
            let '(m', n', u') := digits u m 0 in
            if n' =? 0 then (m, 0, t) else (m', n', u')
        | None => (m, 0, t)
        end in
      let exp_part :=
        match t1 with
        | c :: u =>
            if ((code c =? 101) || (code c =? 69))%N then
              let '(eneg, u1) :=
                match keyword "-" u with
                | Some v => (true, v)
                | None => match keyword "+" u with Some v => (false, v) | None => (false, u) end
                end in
              let '(e, n, u2) := digits u1 0 0 in
              if n =? 0 then None else Some (if eneg then - e else e, u2)
            else None
        | [] => None
        end in
      match exp_part with
      | Some (e, t2) => Some (JFloat (float_of_decimal neg m1 (e - nfrac)), t2)
      | None =>
          if nfrac =? 0 then Some (JInt (if neg then - m else m), t1)
          else Some (JFloat (float_of_decimal neg m1 (- nfrac)), t1)
      end
  end.

(** The characters of a string up to its closing quote. *)
Fixpoint string_body (s : list ascii) : option (string * list ascii) :=
  match s with
  | [] => None
  | c :: t =>
      if (code c =? 34)%N then Some (EmptyString, t)
      else if ((code c =? 92) || (code c <? 32))%N then None
      else
        match string_body t with
        | Some (str, r) => Some (String c str, r)
        | None => None
        end
  end.

(** [d[k] = v] on the association list of a dict. *)
Fixpoint dict_set (k : string) (v : json) (fields : list (string * json))
    : list (string * json) :=
  match fields with
  | [] => [(k, v)]
  | (k', v') :: rest =>
      if String.eqb k' k then (k', v) :: rest else (k', v') :: dict_set k v rest
  end.

Fixpoint value (fuel : nat) (s : list ascii) : option (json * list ascii) :=
  match fuel with
  | O => None
  | S fuel' =>
      match s with
      | [] => None
      | c :: t =>
          if (code c =? 34)%N then
            match string_body t with
            | Some (str, r) => Some (JStr str, r)
            | None => None
            end
          else if (code c =? 91)%N then
            match keyword "]" (skip_space t) with
            | Some r => Some (JArr [], r)
            | None =>
                match elements fuel' (skip_space t) with
                | Some (vs, r) => Some (JArr vs, r)
                | None => None
                end
            end
          else if (code c =? 123)%N then
            match keyword "}" (skip_space t) with
            | Some r => Some (JObj [], r)
            | None =>
                match members fuel' (skip_space t) with
                | Some (kvs, r) =>
                    Some (JObj (fold_left (fun d kv => dict_set (fst kv) (snd kv) d) kvs []), r)
                | None => None
                end
            end
          else
            match keyword "null" s, keyword "true" s, keyword "false" s with
            | Some r, _, _ => Some (JNull, r)
            | _, Some r, _ => Some (JBool true, r)
            | _, _, Some r => Some (JBool false, r)
            | _, _, _ =>
                match keyword "NaN" s, keyword "Infinity" s, keyword "-Infinity" s with
                | Some r, _, _ => Some (JFloat nan, r)
                | _, Some r, _ => Some (JFloat infinity, r)
                | _, _, Some r => Some (JFloat neg_infinity, r)
                | _, _, _ => numeral s
                end
            end
      end
  end
with elements (fuel : nat) (s : list ascii) : option (list json * list ascii) :=
  match fuel with
  | O => None
  | S fuel' =>
      match value fuel' s with
      | None => None
      | Some (v, r) =>
          match keyword "," (skip_space r), keyword "]" (skip_space r) with
          | Some r', _ =>
              match elements fuel' (skip_space r') with
              | Some (vs, r'') => Some (v :: vs, r'')
              | None => None
              end
          | None, Some r' => Some ([v], r')
          | None, None => None
          end
      end
  end
with members (fuel : nat) (s : list ascii) : option (list (string * json) * list ascii) :=
  match fuel with
  | O => None
  | S fuel' =>
      match s with
      | c :: t =>
          if (code c =? 34)%N then
            match string_body t with
            | None => None
            | Some (k, r) =>
                match keyword ":" (skip_space r) with
                | None => None
                | Some r1 =>
                    match value fuel' (skip_space r1) with
                    | None => None
                    | Some (v, r2) =>
                        match keyword "," (skip_space r2), keyword "}" (skip_space r2) with
                        | Some r3, _ =>
                            match members fuel' (skip_space r3) with
                            | Some (kvs, r4) => Some ((k, v) :: kvs, r4)
                            | None => None
                            end
                        | None, Some r3 => Some ([(k, v)], r3)
                        | None, None => None
                        end
                    end
                end
            end
          else None
      | [] => None
      end
  end.

Definition loads (raw : string) : res json :=
  let s := list_ascii_of_string raw in
  match value (2 * List.length s + 2) (skip_space s) with
  | Some (v, r) =>
      match skip_space r with
      | [] => Ok v
      | _ => Raise JSONDecodeError
      end
  | None => Raise JSONDecodeError
  end.

(** Strict UTF-8: the well-formed byte sequences of the Unicode
    standard (no overlong form, no surrogate, nothing above U+10FFFF). *)
Definition between (lo hi : N) (b : byte) : bool :=
  ((lo <=? Byte.to_N b) && (Byte.to_N b <=? hi))%N.

Fixpoint well_formed_utf8 (bs : list byte) : bool :=
  match bs with
  | [] => true
  | b0 :: rest =>
      if between 0 127 b0 then well_formed_utf8 rest
      else
        match rest with
        | b1 :: rest1 =>
            if between 194 223 b0 then between 128 191 b1 && well_formed_utf8 rest1
            else
              match rest1 with
              | b2 :: rest2 =>
                  if between 224 239 b0 then
                    (if between 224 224 b0 then between 160 191 b1
                     else if between 237 237 b0 then between 128 159 b1
                     else between 128 191 b1)
                    && between 128 191 b2 && well_formed_utf8 rest2
                  else
                    match rest2 with
                    | b3 :: rest3 =>
                        between 240 244 b0
                        && (if between 240 240 b0 then between 144 191 b1
                            else if between 244 244 b0 then between 128 143 b1
                            else between 128 191 b1)
                        && between 128 191 b2 && between 128 191 b3
                        && well_formed_utf8 rest3
                    | [] => false
                    end
              | [] => false
              end
        | [] => false
        end
  end.

(** Universal newlines: a carriage return, with the line feed that may
    follow it, is read as one line feed. *)
Fixpoint universal_newlines (bs : list byte) : list byte :=
  match bs with
  | [] => []
  | b :: rest =>
      if Byte.eqb b x0d then
        x0a%byte :: match rest with
                    | b' :: rest' =>
                        if Byte.eqb b' x0a then universal_newlines rest'
                        else universal_newlines rest
                    | [] => []
                    end
      else b :: universal_newlines rest
  end.

(** [sys.stdin.read()] for a standard input in UTF-8 with the error
    handler ["strict"].  (A [str] of the model holds the UTF-8 bytes of
    the text.) *)
Definition read_utf8 (bs : list byte) : res string :=
  if well_formed_utf8 bs then Ok (string_of_list_byte (universal_newlines bs))
  else Raise UnicodeDecodeError.

(** [float(s)] on the numerals of the JSON grammar, surrounded by
    optional blanks.  (Python accepts further spellings, such as
    ["inf"] or [".5"], on which this stand-in raises.) *)
Definition float_of_text (s : string) : res float :=
  match numeral (skip_space (list_ascii_of_string s)) with
  | Some (JInt z, r) =>
      match skip_space r with [] => float_of_int z | _ => Raise ValueError end
  | Some (JFloat f, r) =>
      match skip_space r with [] => Ok f | _ => Raise ValueError end
  | _ => Raise ValueError
  end.

(** [str(v)] for [None], [bool] and [int]; a type name for the other
    values, which take no part in the examples. *)
Definition show (v : json) : string :=
  match v with
  | JNull => "None"
  | JBool true => "True"
  | JBool false => "False"
  | JInt z => NilZero.string_of_int (Z.to_int z)
  | JFloat _ => "<float>"
  | JStr s => s
  | JArr _ => "<list>"
  | JObj _ => "<dict>"
  end.

(** A stand-in for the force-directed layout: the nodes on a line. *)
Fixpoint line_up (ns : list string) (x : float) : layout :=
  match ns with
  | [] => []
  | n :: rest => (n, (x, 0%float)) :: line_up rest (x + 1)%float
  end.

(** A stand-in for the PNG encoder: the PNG signature, then one byte
    per drawing call. *)
Definition png_signature : list byte :=
  [x89; x50; x4e; x47; x0d; x0a; x1a; x0a]%byte.

Definition tag (a : artist) : byte :=
  match a with
  | scatter _ _ => x01
  | annotate _ _ _ => x02
  | set_xscale_log => x03
  | hist _ _ => x04
  | set_xticks _ => x05
  | set_xlabel _ => x06
  | set_ylabel _ => x07
  | set_title _ => x08
  | grid => x09
  | draw_networkx_nodes _ _ _ _ => x0a
  | draw_networkx_labels _ _ => x0b
  | draw_networkx_edges _ _ => x0c
  | set_axis_off => x0d
  end%byte.

Definition draw (fig : figure) : list byte :=
  (png_signature ++ map tag fig)%list.

Definition lib : pylib :=
  {| stdin_read := read_utf8;
     json_loads := loads;
     float_of_str := float_of_text;
     repr := show;
     nx := true;
     spring_layout := fun G _ => Ok (line_up (nodes G) 0%float);
     savefig := fun fig => Ok (draw fig) |}.

(** The same machine without networkx. *)
Definition lib_without_networkx : pylib :=
  {| stdin_read := read_utf8;
     json_loads := loads;
     float_of_str := float_of_text;
     repr := show;
     nx := false;
     spring_layout := fun _ _ => Raise (LibraryError "networkx");
     savefig := fun fig => Ok (draw fig) |}.

(** [networkx_mcp] is not installed: the probe fails and the three
    names stay unbound. *)
Definition no_mcp : mcp :=
  {| HAS_NX_MCP := false;
     mcp_state := unit;
     mcp_init := tt;
     create_graph := fun _ _ st => (Raise (LibraryError "NameError"), st);
     add_nodes := fun _ _ st => (Raise (LibraryError "NameError"), st);
     add_edges := fun _ _ st => (Raise (LibraryError "NameError"), st) |}.

(** An MCP server that records the calls it receives. *)
Inductive mcp_call : Type :=
| Created (name kind : string)
| Nodes (name : string) (ns : list string)
| Edges (name : string) (es : list (string * string)).

Definition recording_mcp : mcp :=
  {| HAS_NX_MCP := true;
     mcp_state := list mcp_call;
     mcp_init := [];
     create_graph := fun name kind st => (Ok tt, (st ++ [Created name kind])%list);
     add_nodes := fun name ns st => (Ok tt, (st ++ [Nodes name ns])%list);
     add_edges := fun name es st => (Ok tt, (st ++ [Edges name es])%list) |}.

(** An MCP server whose first call fails. *)
Definition broken_mcp : mcp :=
  {| HAS_NX_MCP := true;
     mcp_state := unit;
     mcp_init := tt;
     create_graph := fun _ _ st => (Raise (LibraryError "connection refused"), st);
     add_nodes := fun _ _ st => (Ok tt, st);
     add_edges := fun _ _ st => (Ok tt, st) |}.

(** A string between double quotes, for writing JSON text. *)
Definition quoted (s : string) : string :=
  String (ascii_of_nat 34) (s ++ String (ascii_of_nat 34) EmptyString).

(** The bytes of a text that is plain ASCII. *)
Definition bytes_of (text : string) : list byte := list_byte_of_string text.

(** The text of the document with the single pick [A] and no site. *)
Definition doc_A : string :=
  "{" ++ quoted "picks" ++ ": [{" ++ quoted "id" ++ ": " ++ quoted "A" ++ ", "
      ++ quoted "cost" ++ ": 100, " ++ quoted "benefit" ++ ": 0.5}], "
      ++ quoted "sites" ++ ": []}".

End Reference.

(* ================================================================== *)
(** ** Notions used by the specification *)
(* ================================================================== *)

(** The image a guarded builder call contributes: the returned
    descriptor, and nothing when the builder returned [None] or raised. *)
Definition produced (r : res json) : list json :=
  match r with
  | Ok JNull => []
  | Ok c => [c]
  | Raise _ => []
  end.

(** What a chart builder can do: return [None], return a descriptor
    whose data URL is the prefix followed by the base64 text of the
    rendered bytes, or raise. *)
Inductive chart_result : res json -> Prop :=
| chart_none : chart_result (Ok JNull)
| chart_image (title description : string) (png : list byte) :
    chart_result
      (Ok (descriptor title description (data_url_prefix ++ Base64.b64encode png)))
| chart_raised (e : exn) : chart_result (Raise e).

(** [strip p s] is what follows [p] in [s], when [s] starts with [p]. *)
Fixpoint strip (p s : string) : option string :=
  match p, s with
  | EmptyString, _ => Some s
  | String a p', String b s' => if Ascii.eqb a b then strip p' s' else None
  | String _ _, EmptyString => None
  end.

(** A string that starts with [data:image/png;base64,] and goes on with
    text that decodes as base64. *)
Definition is_png_data_url (url : string) : bool :=
  match strip data_url_prefix url with
  | Some text =>
      match Base64.b64decode text with Some _ => true | None => false end
  | None => false
  end.

Definition has_png_data_url (image : json) : bool :=
  match image with
  | JObj fields =>
      match dict_get "dataUrl" fields with
      | Some (JStr url) => is_png_data_url url
      | _ => false
      end
  | _ => false
  end.


Definition is_dict (v : json) : bool :=
  match v with JObj _ => true | _ => false end.

(** The images a run of the script printed (none when it crashed). *)
Definition images_printed (o : outcome) : list json :=
  match o with
  | Exited out => images_of out
  | Crashed _ => []
  end.

(** The three descriptors, given their data URLs. *)
Definition benefit_vs_cost_image (url : string) : json :=
  descriptor "Benefit vs Cost"
    "Scatter plot of strategy cost vs expected risk reduction." url.

Definition risk_distribution_image (url : string) : json :=
  descriptor "Risk Distribution"
    "Histogram of site risk scores across the portfolio." url.

Definition optimization_graph_image (url : string) : json :=
  descriptor "Strategy Graph"
    "Network diagram linking strategies to budget and risk-reduction hubs." url.

(** The document of the specification's second testable property:
    one pick [A] of cost 100 and benefit 0.5. *)
Definition pick_A : json :=
  JObj [("id", JStr "A"); ("cost", JInt 100); ("benefit", JFloat 0.5)].

Definition graph_A : graph :=
  {| nodes := ["Budget"; "RiskReduction"; "A"];
     edges := [("A", "Budget", 1%float); ("A", "RiskReduction", 0.5%float)] |}.

Definition is_array (v : json) : bool :=
  match v with JArr _ => true | _ => false end.

(** The image of one kind in the output, when its builder produced the
    bytes [png]. *)
Definition optional_image (image : string -> json) (png : option (list byte))
    : list json :=
  match png with
  | Some bytes => [image (data_url_prefix ++ Base64.b64encode bytes)]
  | None => []
  end.

(** The graph the relationship builder starts from: the two hubs. *)
Definition hub_graph : graph :=
  add_node "RiskReduction" (add_node "Budget" empty_graph).




(** A printable ASCII character other than the double quote and the
    backslash: [json.dumps] writes it as it is. *)
Definition plain_char (c : ascii) : bool :=
  let n := N_of_ascii c in
  ((33 <=? n) && (n <=? 126) && negb (n =? 34) && negb (n =? 92))%N.

(* ================================================================== *)
(** ** Properties *)
(* ================================================================== *)

(** Case analysis on the next step of a computation in the error monad,
    up to the rendering of the figure. *)
Ltac step :=
  match goal with
  | |- context [bind ?r _] =>
      lazymatch r with
      | fig_to_data_url _ _ => fail
      | _ => let E := fresh "E" in destruct r eqn:E; cbn [bind]
      end
  end.

(** *** Python builtins on concrete values *)

Example float_of_int_100 : float_of_int 100 = Ok 100%float.
Proof. reflexivity. Qed.

Example float_of_int_too_large : float_of_int (2 ^ 1024) = Raise OverflowError.
Proof. vm_compute. reflexivity. Qed.

Example max2_nan : max2 1 nan = 1%float.
Proof. reflexivity. Qed.

Example b64encode_Man : Base64.b64encode ["M"; "a"; "n"]%byte = "TWFu".
Proof. reflexivity. Qed.

Example b64encode_Ma : Base64.b64encode ["M"; "a"]%byte = "TWE=".
Proof. reflexivity. Qed.

Example b64decode_TQ : Base64.b64decode "TQ==" = Some ["M"%byte].
Proof. reflexivity. Qed.

Example loads_object : Reference.loads "{}" = Ok (JObj []).
Proof. reflexivity. Qed.

Example loads_array : Reference.loads " [1, 2.5, null] " = Ok (JArr [JInt 1; JFloat 2.5; JNull]).
Proof. vm_compute. reflexivity. Qed.

Example loads_truncated : Reference.loads "{" = Raise JSONDecodeError.
Proof. reflexivity. Qed.

(** *** base64: decoding undoes encoding *)

Section Base64Facts.

Import Base64.
Local Open Scope N_scope.

Lemma sextets (a b c : N) :
  a < 256 -> b < 256 -> c < 256 ->
  a / 4 < 64 /\ a mod 4 * 16 + b / 16 < 64 /\
  b mod 16 * 4 + c / 64 < 64 /\ c mod 64 < 64 /\
  a / 4 * 4 + (a mod 4 * 16 + b / 16) / 16 = a /\
  (a mod 4 * 16 + b / 16) mod 16 * 16 + (b mod 16 * 4 + c / 64) / 4 = b /\
  (b mod 16 * 4 + c / 64) mod 4 * 64 + c mod 64 = c.
Proof.
  intros. repeat split; zify; Z.to_euclidean_division_equations; lia.
Qed.

Lemma sextet_in_range (n : N) : n < 64 -> In n (map N.of_nat (seq 0 64)).
Proof.
  intros H. apply in_map_iff. exists (N.to_nat n).
  split; [lia | apply in_seq; lia].
Qed.

Lemma value_digit (n : N) : n < 64 -> value (digit n) = Some n.
Proof.
  intros H.
  assert (A : forallb
                (fun n => match value (digit n) with
                          | Some m => m =? n
                          | None => false
                          end)
                (map N.of_nat (seq 0 64)) = true) by (vm_compute; reflexivity).
  rewrite forallb_forall in A. specialize (A n (sextet_in_range n H)).
  destruct (value (digit n)); [|discriminate].
  apply N.eqb_eq in A. now subst.
Qed.

Lemma digit_not_pad (n : N) : n < 64 -> Ascii.eqb (digit n) pad = false.
Proof.
  intros H.
  assert (A : forallb (fun n => negb (Ascii.eqb (digit n) pad))
                (map N.of_nat (seq 0 64)) = true) by (vm_compute; reflexivity).
  rewrite forallb_forall in A. specialize (A n (sextet_in_range n H)).
  now apply negb_true_iff in A.
Qed.

Lemma to_N_lt (b : byte) : Byte.to_N b < 256.
Proof. pose proof (Byte.to_N_bounded b). lia. Qed.

Lemma byte_of_to_N (b : byte) (n : N) : n = Byte.to_N b -> byte_of n = Some b.
Proof. intros ->. apply Byte.of_to_N. Qed.

Lemma decode_group (a b c : byte) (rest : string) :
  b64decode
    (String (digit (Byte.to_N a / 4))
       (String (digit (Byte.to_N a mod 4 * 16 + Byte.to_N b / 16))
          (String (digit (Byte.to_N b mod 16 * 4 + Byte.to_N c / 64))
             (String (digit (Byte.to_N c mod 64)) rest)))) =
  match b64decode rest with
  | Some tail => Some (a :: b :: c :: tail)
  | None => None
  end.
Proof.
  destruct (sextets _ _ _ (to_N_lt a) (to_N_lt b) (to_N_lt c))
    as (H0 & H1 & H2 & H3 & Ea & Eb & Ec).
  cbn [b64decode].
  rewrite (value_digit _ H0), (value_digit _ H1), (value_digit _ H2), (value_digit _ H3).
  rewrite (digit_not_pad _ H3).
  rewrite (byte_of_to_N a), (byte_of_to_N b), (byte_of_to_N c) by assumption.
  reflexivity.
Qed.

Lemma decode_last1 (a : byte) : b64decode (b64encode [a]) = Some [a].
Proof.
  destruct (sextets _ 0 0 (to_N_lt a) eq_refl eq_refl) as (H0 & H1 & _ & _ & Ea & _).
  cbn [b64encode b64decode].
  change (Byte.to_N a mod 4 * 16 + 0 / 16) with (Byte.to_N a mod 4 * 16 + 0) in *.
  rewrite N.add_0_r in *.
  rewrite (value_digit _ H0), (value_digit _ H1).
  change (Ascii.eqb pad pad) with true. cbn match.
  now rewrite (byte_of_to_N a).
Qed.

Lemma decode_last2 (a b : byte) : b64decode (b64encode [a; b]) = Some [a; b].
Proof.
  destruct (sextets _ _ 0 (to_N_lt a) (to_N_lt b) eq_refl)
    as (H0 & H1 & H2 & _ & Ea & Eb & _).
  cbn [b64encode b64decode].
  change (0 / 64) with 0 in *. rewrite N.add_0_r in *.
  rewrite (value_digit _ H0), (value_digit _ H1), (value_digit _ H2).
  change (Ascii.eqb pad pad) with true. cbn match.
  rewrite (digit_not_pad _ H2).
  now rewrite (byte_of_to_N a), (byte_of_to_N b).
Qed.

Lemma list_ind3 {A : Type} (P : list A -> Prop) :
  P [] -> (forall a, P [a]) -> (forall a b, P [a; b]) ->
  (forall a b c l, P l -> P (a :: b :: c :: l)) ->
  forall l, P l.
Proof.
  intros H0 H1 H2 H3 l.
  enough (P l /\ (forall a, P (a :: l)) /\ (forall a b, P (a :: b :: l))) by tauto.
  induction l as [|x l (IH0 & IH1 & IH2)]; auto.
Qed.

Lemma b64decode_b64encode (data : list byte) :
  b64decode (b64encode data) = Some data.
Proof.
  induction data as [|a|a b|a b c rest IH] using list_ind3.
  - reflexivity.
  - apply decode_last1.
  - apply decode_last2.
  - change (b64encode (a :: b :: c :: rest)) with
      (String (digit (Byte.to_N a / 4))
         (String (digit (Byte.to_N a mod 4 * 16 + Byte.to_N b / 16))
            (String (digit (Byte.to_N b mod 16 * 4 + Byte.to_N c / 64))
               (String (digit (Byte.to_N c mod 64)) (b64encode rest))))).
    rewrite decode_group, IH. reflexivity.
Qed.

End Base64Facts.

(** *** What a builder returns *)

Lemma strip_app (p s : string) : strip p (p ++ s) = Some s.
Proof.
  induction p as [|a p IH]; cbn; [reflexivity|].
  now rewrite Ascii.eqb_refl.
Qed.

Lemma data_url_is_png (png : list byte) :
  is_png_data_url (data_url_prefix ++ Base64.b64encode png) = true.
Proof.
  unfold is_png_data_url. now rewrite strip_app, b64decode_b64encode.
Qed.

Lemma fig_to_data_url_inv (L : pylib) (fig : figure) (url : string) :
  fig_to_data_url L fig = Ok url ->
  exists png, savefig L fig = Ok png /\ url = data_url_prefix ++ Base64.b64encode png.
Proof.
  unfold fig_to_data_url. intros H.
  destruct (savefig L fig) as [png|e]; cbn [bind] in H; [|discriminate].
  exists png. split; [reflexivity | now inversion H].
Qed.

Lemma described_chart_result (L : pylib) (fig : figure) (title description : string) :
  chart_result (url <- fig_to_data_url L fig ;; Ok (descriptor title description url)).
Proof.
  destruct (fig_to_data_url L fig) as [url|e] eqn:E; cbn [bind].
  - apply fig_to_data_url_inv in E as (png & _ & ->). constructor.
  - constructor.
Qed.

Lemma chart_benefit_vs_cost_result (L : pylib) (picks : json) :
  chart_result (chart_benefit_vs_cost L picks).
Proof.
  unfold chart_benefit_vs_cost.
  destruct (truthy picks); cbn [negb]; [|constructor].
  repeat (step; [|constructor]).
  apply described_chart_result.
Qed.

Lemma chart_risk_distribution_result (L : pylib) (sites : json) :
  chart_result (chart_risk_distribution L sites).
Proof.
  unfold chart_risk_distribution.
  destruct (truthy sites); cbn [negb]; [|constructor].
  repeat (step; [|constructor]).
  match goal with |- context [match ?l with [] => _ | _ => _ end] => destruct l end;
    [constructor | apply described_chart_result].
Qed.

Lemma render_graph_result (L : pylib) (picks : json) :
  chart_result (render_graph L picks).
Proof.
  unfold render_graph.
  repeat (step; [|constructor]).
  apply described_chart_result.
Qed.

(** The graph builder never raises, and the chart it returns does not
    depend on the MCP interface nor on the state of the MCP server. *)
Lemma chart_optimization_graph_fst (L : pylib) (M : mcp) (picks : json)
    (st : mcp_state M) :
  fst (chart_optimization_graph L M picks st) =
  if negb (truthy picks) || negb (nx L) then Ok JNull
  else match render_graph L picks with
       | Ok c => Ok c
       | Raise _ => Ok JNull
       end.
Proof.
  unfold chart_optimization_graph.
  destruct (negb (truthy picks) || negb (nx L)); [reflexivity|].
  destruct (render_graph L picks); reflexivity.
Qed.

Lemma chart_optimization_graph_result (L : pylib) (M : mcp) (picks : json)
    (st : mcp_state M) :
  chart_result (fst (chart_optimization_graph L M picks st)).
Proof.
  rewrite chart_optimization_graph_fst.
  destruct (negb (truthy picks) || negb (nx L)); [constructor|].
  pose proof (render_graph_result L picks) as H.
  destruct (render_graph L picks); [assumption | constructor].
Qed.

Lemma append_chart_produced (images : list json) (r : res json) :
  chart_result r -> append_chart images r = (images ++ produced r)%list.
Proof.
  intros [| |]; cbn; now rewrite ?app_nil_r.
Qed.

Lemma produced_png (r : res json) :
  chart_result r -> forallb has_png_data_url (produced r) = true.
Proof.
  intros [|title description png|]; cbn [produced descriptor forallb];
    [reflexivity | | reflexivity].
  cbn [has_png_data_url dict_get]. cbn -[is_png_data_url data_url_prefix].
  now rewrite data_url_is_png.
Qed.

(** The output document in terms of the three guarded calls. *)
Lemma build_output_images (L : pylib) (M : mcp) (picks sites : json)
    (st : mcp_state M) :
  fst (build_output L M picks sites st) =
  output
    (produced (chart_benefit_vs_cost L picks)
       ++ produced (chart_risk_distribution L sites)
       ++ produced (fst (chart_optimization_graph L M picks st)))%list
    (HAS_NX_MCP M).
Proof.
  unfold build_output.
  pose proof (chart_optimization_graph_result L M picks st) as H3.
  destruct (chart_optimization_graph L M picks st) as [c3 st'].
  cbn [fst] in *.
  rewrite !append_chart_produced; auto using chart_benefit_vs_cost_result,
    chart_risk_distribution_result.
  now rewrite <- app_assoc.
Qed.

Lemma images_of_output (images : list json) (flag : bool) :
  images_of (output images flag) = images.
Proof. reflexivity. Qed.

Lemma count_of_output (images : list json) (flag : bool) :
  meta_of "count" (output images flag) = Some (JInt (Z.of_nat (List.length images))).
Proof. reflexivity. Qed.

Lemma flag_of_output (images : list json) (flag : bool) :
  meta_of "nx_mcp_used" (output images flag) = Some (JBool flag).
Proof. reflexivity. Qed.

(** C4.  For every [picks] and [sites] that [read_input] hands to [main],
    the [images] array of the output lists the charts that were produced,
    in the order cost/benefit, risk distribution, relationship graph, a
    builder that returned [None] or raised being left out, and
    [meta.count] is the length of that array; this output is what [main]
    prints whenever [read_input] returns. *)
Theorem images_follow_call_order (L : pylib) (M : mcp) :
  (forall picks sites st,
      let out := fst (build_output L M picks sites st) in
      images_of out =
        (produced (chart_benefit_vs_cost L picks)
           ++ produced (chart_risk_distribution L sites)
           ++ produced (fst (chart_optimization_graph L M picks st)))%list
      /\ meta_of "count" out = Some (JInt (Z.of_nat (List.length (images_of out)))))
  /\ (forall stdin,
        match read_input L stdin with
        | Ok (picks, sites) =>
            main L M stdin = Exited (fst (build_output L M picks sites (mcp_init M)))
        | Raise e => main L M stdin = Crashed e
        end).
Proof.
  split.
  - intros picks sites st. cbv zeta.
    rewrite build_output_images, images_of_output, count_of_output.
    split; reflexivity.
  - intros stdin. unfold main.
    destruct (read_input L stdin) as [[picks sites]|e]; reflexivity.
Qed.

Lemma build_output_data_urls (L : pylib) (M : mcp) (picks sites : json)
    (st : mcp_state M) :
  forallb has_png_data_url (images_of (fst (build_output L M picks sites st))) = true.
Proof.
  rewrite build_output_images, images_of_output, !forallb_app.
  rewrite !produced_png; auto using chart_benefit_vs_cost_result,
    chart_risk_distribution_result, chart_optimization_graph_result.
Qed.

(** C9.  Every image descriptor of the output carries a [dataUrl] that
    starts with [data:image/png;base64,] and whose remainder decodes as
    base64: so it is for every output [main] assembles, and for what a
    run prints on any standard input. *)
Theorem data_urls_are_png_base64 (L : pylib) (M : mcp) :
  (forall picks sites st,
      forallb has_png_data_url (images_of (fst (build_output L M picks sites st))) = true)
  /\ (forall stdin, forallb has_png_data_url (images_printed (main L M stdin)) = true).
Proof.
  split; [apply build_output_data_urls|].
  intros stdin. unfold main.
  destruct (read_input L stdin) as [[picks sites]|e]; [|reflexivity].
  apply build_output_data_urls.
Qed.

(** *** The MCP interface *)

Lemma build_output_any_mcp (L : pylib) (M1 M2 : mcp) (picks sites : json)
    (st1 : mcp_state M1) (st2 : mcp_state M2) :
  images_of (fst (build_output L M1 picks sites st1)) =
  images_of (fst (build_output L M2 picks sites st2)).
Proof.
  rewrite !build_output_images, !images_of_output, !chart_optimization_graph_fst.
  reflexivity.
Qed.

(** C5.  Whether [networkx_mcp] is present, what its functions do to the
    MCP server and whether they raise changes nothing but
    [meta.nx_mcp_used]: the relationship-graph chart is the same, and two
    runs on the same input end with the same images (or die of the same
    exception raised by [read_input]). *)
Theorem mcp_changes_only_the_flag (L : pylib) (M1 M2 : mcp) :
  (forall picks st1 st2,
      fst (chart_optimization_graph L M1 picks st1) =
      fst (chart_optimization_graph L M2 picks st2))
  /\ (forall stdin,
        (exists images,
            main L M1 stdin = Exited (output images (HAS_NX_MCP M1)) /\
            main L M2 stdin = Exited (output images (HAS_NX_MCP M2)))
        \/ (exists e, main L M1 stdin = Crashed e /\ main L M2 stdin = Crashed e)).
Proof.
  split.
  - intros picks st1 st2. now rewrite !chart_optimization_graph_fst.
  - intros stdin. unfold main.
    destruct (read_input L stdin) as [[picks sites]|e].
    + left. rewrite !build_output_images, !chart_optimization_graph_fst.
      eexists. split; reflexivity.
    + right. exists e. split; reflexivity.
Qed.

(** *** Reading the input *)

Lemma read_input_text (L : pylib) (stdin : list byte) (raw : string) :
  stdin_read L stdin = Ok raw -> read_input L stdin = input_of_text L raw.
Proof. intros H. unfold read_input. now rewrite H. Qed.

Lemma read_input_undecodable (L : pylib) (stdin : list byte) (e : exn) :
  stdin_read L stdin = Raise e -> read_input L stdin = Raise e.
Proof. intros H. unfold read_input. now rewrite H. Qed.

Lemma input_of_text_object (L : pylib) (raw : string) (fields : list (string * json)) :
  raw <> "" -> json_loads L raw = Ok (JObj fields) ->
  exists picks sites, input_of_text L raw = Ok (picks, sites).
Proof.
  intros Hraw Hload. unfold input_of_text.
  apply String.eqb_neq in Hraw. rewrite Hraw, Hload. cbn.
  eauto.
Qed.

Lemma input_of_text_empty_object (L : pylib) (raw : string) :
  raw = "" \/ json_loads L raw = Ok (JObj []) \/ (exists e, json_loads L raw = Raise e) ->
  input_of_text L raw = Ok (JArr [], JArr []).
Proof.
  unfold input_of_text. intros [-> | [H | [e H]]].
  - reflexivity.
  - rewrite H. now destruct (negb (raw =? "")%string).
  - rewrite H. now destruct (negb (raw =? "")%string).
Qed.

(** A document that parses to anything but an object kills the
    process: [data.get] raises outside every [try]. *)
Lemma input_of_text_not_object (L : pylib) (raw : string) (v : json) :
  raw <> "" -> json_loads L raw = Ok v -> is_dict v = false ->
  input_of_text L raw = Raise AttributeError.
Proof.
  intros Hraw Hload Hv. unfold input_of_text.
  apply String.eqb_neq in Hraw. rewrite Hraw, Hload. cbn [negb].
  destruct v; try discriminate; reflexivity.
Qed.

Lemma main_crashes_on_non_object (L : pylib) (M : mcp) (stdin : list byte)
    (raw : string) (v : json) :
  stdin_read L stdin = Ok raw ->
  raw <> "" -> json_loads L raw = Ok v -> is_dict v = false ->
  main L M stdin = Crashed AttributeError.
Proof.
  intros Hread Hraw Hload Hv. unfold main.
  now rewrite (read_input_text L stdin raw Hread), (input_of_text_not_object L raw v).
Qed.

(** Bytes that the decoder of standard input rejects kill the process
    too: the read is outside the [try]. *)
Lemma main_crashes_on_undecodable (L : pylib) (M : mcp) (stdin : list byte) (e : exn) :
  stdin_read L stdin = Raise e -> main L M stdin = Crashed e.
Proof.
  intros H. unfold main. now rewrite (read_input_undecodable L stdin e H).
Qed.

(** Past [read_input] nothing can stop [main]: empty, unparseable and
    object documents all lead to exit status 0. *)
Lemma main_exits_on_object (L : pylib) (M : mcp) (stdin : list byte) (raw : string) :
  stdin_read L stdin = Ok raw ->
  raw = "" \/ (exists e, json_loads L raw = Raise e)
  \/ (exists fields, json_loads L raw = Ok (JObj fields)) ->
  exists out, main L M stdin = Exited out.
Proof.
  intros Hread H. unfold main. rewrite (read_input_text L stdin raw Hread).
  assert (exists picks sites, input_of_text L raw = Ok (picks, sites))
    as (picks & sites & ->).
  { destruct (String.eqb_spec raw "") as [->|Hraw].
    - exists (JArr []), (JArr []). apply input_of_text_empty_object. now left.
    - destruct H as [-> | [[e H] | [fields H]]]; [easy | |].
      + exists (JArr []), (JArr []). apply input_of_text_empty_object. eauto.
      + eapply input_of_text_object; eauto. }
  eauto.
Qed.

(** C1.  On the JSON document [[]] the process does not exit
    successfully: [json.loads] returns a list, [data.get("picks")] raises
    [AttributeError] in [read_input], outside every [try], and the
    interpreter ends with a traceback and a non-zero status. *)
Theorem main_dies_on_a_json_array :
  Reference.read_utf8 (Reference.bytes_of "[]") = Ok "[]"
  /\ Reference.loads "[]" = Ok (JArr [])
  /\ main Reference.lib Reference.no_mcp (Reference.bytes_of "[]") = Crashed AttributeError.
Proof. split; [|split]; reflexivity. Qed.

Lemma no_charts_without_input (L : pylib) (M : mcp) (st : mcp_state M) :
  fst (build_output L M (JArr []) (JArr []) st) = output [] (HAS_NX_MCP M).
Proof. reflexivity. Qed.

(** C3.  An input that is not JSON can kill the process instead of
    giving the empty output: on the single byte 0xFF, with a standard
    input in UTF-8 under the error handler ["strict"],
    [sys.stdin.read()] raises [UnicodeDecodeError] at line 32, before the
    [try] that guards [json.loads], and the interpreter ends with a
    traceback and a non-zero status. *)
Theorem main_dies_on_undecodable_bytes :
  Reference.read_utf8 [xff]%byte = Raise UnicodeDecodeError
  /\ main Reference.lib Reference.no_mcp [xff]%byte = Crashed UnicodeDecodeError.
Proof. split; reflexivity. Qed.

(** X18.  When standard input decodes to the empty text, to the text
    [{}] or to any text that [json.loads] rejects, the run ends with exit
    status 0 and the same output: no image and a count of 0. *)
Theorem empty_and_malformed_text_give_no_images (L : pylib) (M : mcp)
    (stdin : list byte) (raw : string) :
  stdin_read L stdin = Ok raw ->
  json_loads L "{}" = Ok (JObj []) ->
  raw = "" \/ raw = "{}" \/ (exists e, json_loads L raw = Raise e) ->
  main L M stdin =
  Exited (JObj [("images", JArr []);
                ("meta", JObj [("nx_mcp_used", JBool (HAS_NX_MCP M));
                               ("count", JInt 0)])]).
Proof.
  intros Hread Hobj Hraw. unfold main.
  rewrite (read_input_text L stdin raw Hread), input_of_text_empty_object.
  - now rewrite no_charts_without_input.
  - destruct Hraw as [-> | [-> | H]]; auto.
Qed.

Lemma empty_and_malformed_text_give_no_images_witness :
  let nothing :=
    Exited (JObj [("images", JArr []);
                  ("meta", JObj [("nx_mcp_used", JBool false); ("count", JInt 0)])]) in
  main Reference.lib Reference.no_mcp [] = nothing
  /\ main Reference.lib Reference.no_mcp (Reference.bytes_of "{}") = nothing
  /\ main Reference.lib Reference.no_mcp (Reference.bytes_of "{") = nothing.
Proof.
  cbv zeta. split; [|split].
  - apply (empty_and_malformed_text_give_no_images Reference.lib Reference.no_mcp [] "");
      [reflexivity | reflexivity | left; reflexivity].
  - apply (empty_and_malformed_text_give_no_images Reference.lib Reference.no_mcp
             (Reference.bytes_of "{}") "{}");
      [reflexivity | reflexivity | right; left; reflexivity].
  - apply (empty_and_malformed_text_give_no_images Reference.lib Reference.no_mcp
             (Reference.bytes_of "{") "{");
      [reflexivity | reflexivity | right; right; exists JSONDecodeError; reflexivity].
Defined.

(** *** List comprehensions *)

Lemma comprehension_length {A B : Type} (f : A -> res B) (l : list A) (ys : list B) :
  comprehension f l = Ok ys -> List.length ys = List.length l.
Proof.
  revert ys. induction l as [|x l IH]; intros ys H; cbn in H.
  - now inversion H.
  - destruct (f x) as [y|e]; cbn [bind] in H; [|discriminate].
    destruct (comprehension f l) as [ys'|e]; cbn [bind] in H; [|discriminate].
    inversion H. cbn. f_equal. now apply IH.
Qed.

(** A comprehension raises as soon as one of its items does. *)
Lemma comprehension_raises {A B : Type} (f : A -> res B) (l : list A) (x : A) :
  In x l -> (exists e, f x = Raise e) -> exists e, comprehension f l = Raise e.
Proof.
  intros Hin [e He]. induction l as [|a l IH]; [easy|].
  cbn. destruct (f a) as [y|e'] eqn:Ea; cbn [bind]; [|eauto].
  destruct Hin as [->|Hin]; [congruence|].
  destruct (IH Hin) as [e' ->]. cbn. eauto.
Qed.


(** *** The risk distribution *)

Lemma filter_all_none (sites : list json) :
  forallb is_none sites = true -> filter (fun s => negb (is_none s)) sites = [].
Proof.
  induction sites as [|s sites IH]; cbn; [reflexivity|].
  intros H. apply andb_true_iff in H as [Hs H]. rewrite Hs. cbn. auto.
Qed.

Lemma filter_some_site (sites : list json) :
  forallb is_none sites = false ->
  exists s rest, filter (fun s => negb (is_none s)) sites = s :: rest.
Proof.
  induction sites as [|s sites IH]; cbn; [discriminate|].
  destruct (is_none s); cbn; eauto.
Qed.

Lemma filter_not_none_idem (sites : list json) :
  filter (fun s => negb (is_none s)) (filter (fun s => negb (is_none s)) sites) =
  filter (fun s => negb (is_none s)) sites.
Proof.
  induction sites as [|s sites IH]; cbn; [reflexivity|].
  destruct (is_none s) eqn:E; cbn; [assumption|].
  rewrite E. cbn. now f_equal.
Qed.

(** The builder on a list, after the emptiness test and the iteration. *)
Lemma chart_risk_distribution_list (L : pylib) (sites : list json) :
  chart_risk_distribution L (JArr sites) =
  (risks <- comprehension (site_risk L) (filter (fun s => negb (is_none s)) sites) ;;
   match risks with
   | [] => Ok JNull
   | _ => url <- fig_to_data_url L (risk_distribution_figure risks) ;;
          Ok (risk_distribution_image url)
   end).
Proof.
  destruct sites as [|s sites]; reflexivity.
Qed.

Lemma chart_risk_distribution_raises (L : pylib) (sites : list json) (s : json) :
  In s sites -> is_none s = false -> (exists e, site_risk L s = Raise e) ->
  exists e, chart_risk_distribution L (JArr sites) = Raise e.
Proof.
  intros Hin Hs H. rewrite chart_risk_distribution_list.
  destruct (comprehension_raises (site_risk L)
              (filter (fun s => negb (is_none s)) sites) s) as [e ->]; auto.
  - apply filter_In. now rewrite Hs.
  - cbn. eauto.
Qed.

Lemma chart_risk_distribution_none_iff (L : pylib) (sites : list json) :
  chart_risk_distribution L (JArr sites) = Ok JNull <-> forallb is_none sites = true.
Proof.
  rewrite chart_risk_distribution_list. split.
  - intros H. destruct (forallb is_none sites) eqn:E; [reflexivity|exfalso].
    destruct (filter_some_site sites E) as (s & rest & Hf). rewrite Hf in H.
    destruct (comprehension (site_risk L) (s :: rest)) as [risks|e] eqn:Ec;
      cbn [bind] in H; [|discriminate].
    apply comprehension_length in Ec.
    destruct risks as [|r risks]; [discriminate|].
    destruct (fig_to_data_url L (risk_distribution_figure (r :: risks)));
      discriminate.
  - intros H. now rewrite filter_all_none.
Qed.

(** C10.  The risk-distribution builder skips [null] entries: it returns
    what it returns on the list without them, and on a list of [null]s
    only, of any length, it returns [None] and does not raise. *)
Theorem null_sites_are_skipped (L : pylib) :
  (forall sites,
      chart_risk_distribution L (JArr sites) =
      chart_risk_distribution L (JArr (filter (fun s => negb (is_none s)) sites)))
  /\ (forall sites,
        chart_risk_distribution L (JArr (JNull :: sites)) =
        chart_risk_distribution L (JArr sites))
  /\ (forall n, chart_risk_distribution L (JArr (repeat JNull n)) = Ok JNull).
Proof.
  split; [|split].
  - intros sites. now rewrite !chart_risk_distribution_list, filter_not_none_idem.
  - intros sites. now rewrite !chart_risk_distribution_list.
  - intros n. apply chart_risk_distribution_none_iff.
    induction n; cbn; auto.
Qed.

Lemma site_risk_absent (L : pylib) (fields : list (string * json)) :
  dict_get "Risk" fields = None -> site_risk L (JObj fields) = Ok 0%float.
Proof. intros H. unfold site_risk. cbn. now rewrite H. Qed.




(** *** Numeric fields *)

Lemma pick_cost_absent (L : pylib) (fields : list (string * json)) :
  dict_get "cost" fields = None -> pick_cost L (JObj fields) = Ok 0%float.
Proof. intros H. unfold pick_cost. cbn. now rewrite H. Qed.

Lemma pick_benefit_absent (L : pylib) (fields : list (string * json)) :
  dict_get "benefit" fields = None -> pick_benefit L (JObj fields) = Ok 0%float.
Proof. intros H. unfold pick_benefit. cbn. now rewrite H. Qed.


Lemma pick_x_raises (L : pylib) (p : json) :
  (exists e, pick_cost L p = Raise e) -> exists e, pick_x L p = Raise e.
Proof. intros [e H]. unfold pick_x. rewrite H. cbn. eauto. Qed.

Lemma chart_benefit_vs_cost_list (L : pylib) (p : json) (picks : list json) :
  chart_benefit_vs_cost L (JArr (p :: picks)) =
  (xs <- comprehension (pick_x L) (p :: picks) ;;
   ys <- comprehension (pick_benefit L) (p :: picks) ;;
   labels <- comprehension (pick_label L) (p :: picks) ;;
   hi <- py_max xs ;;
   lo <- py_min xs ;;
   ratio <- py_div hi (max2 1 lo) ;;
   url <- fig_to_data_url L (benefit_vs_cost_figure xs ys labels (50 <? ratio)%float) ;;
   Ok (benefit_vs_cost_image url)).
Proof. reflexivity. Qed.

Lemma chart_benefit_vs_cost_raises (L : pylib) (picks : list json) (p : json) :
  In p picks ->
  (exists e, pick_cost L p = Raise e) \/ (exists e, pick_benefit L p = Raise e) ->
  exists e, chart_benefit_vs_cost L (JArr picks) = Raise e.
Proof.
  intros Hin H. destruct picks as [|p0 picks]; [easy|].
  rewrite chart_benefit_vs_cost_list.
  destruct (comprehension (pick_x L) (p0 :: picks)) as [xs|e] eqn:Ex; cbn [bind]; [|eauto].
  destruct H as [H|H].
  - apply pick_x_raises in H.
    destruct (comprehension_raises (pick_x L) _ p Hin H) as [e He]. congruence.
  - destruct (comprehension_raises (pick_benefit L) _ p Hin H) as [e ->]. cbn. eauto.
Qed.

(** In the relationship graph an absent cost counts as 1, not 0; the
    edge to the budget hub gets the weight 1.0 either way. *)
Lemma budget_weight_of_absent_cost :
  float_of_int 1 = Ok 1%float /\ float_of_int 0 = Ok 0%float
  /\ max2 1 (1 / 1000000) = 1%float /\ max2 1 (0 / 1000000) = 1%float.
Proof. repeat split. Qed.

(** C2, as the code has it.  An absent [cost], [benefit] or [Risk] counts
    as 0.  A field that is present holds whatever [float] makes of its
    value, and [float] raises on [null], lists and objects (and on the
    strings and integers the library rejects): the builder then raises
    with it, and [main] leaves that chart out. *)
Theorem numeric_fields_default_only_when_absent (L : pylib) :
  (forall fields,
      (dict_get "cost" fields = None -> pick_cost L (JObj fields) = Ok 0%float)
      /\ (dict_get "benefit" fields = None -> pick_benefit L (JObj fields) = Ok 0%float)
      /\ (dict_get "Risk" fields = None -> site_risk L (JObj fields) = Ok 0%float))
  /\ (forall fields v,
        (dict_get "cost" fields = Some v -> pick_cost L (JObj fields) = py_float L v)
        /\ (dict_get "benefit" fields = Some v -> pick_benefit L (JObj fields) = py_float L v)
        /\ (dict_get "Risk" fields = Some v -> site_risk L (JObj fields) = py_float L v))
  /\ (py_float L JNull = Raise TypeError
      /\ (forall items, py_float L (JArr items) = Raise TypeError)
      /\ (forall fields, py_float L (JObj fields) = Raise TypeError))
  /\ (forall picks p,
        In p picks ->
        (exists e, pick_cost L p = Raise e) \/ (exists e, pick_benefit L p = Raise e) ->
        exists e, chart_benefit_vs_cost L (JArr picks) = Raise e)
  /\ (forall sites s,
        In s sites -> is_none s = false -> (exists e, site_risk L s = Raise e) ->
        exists e, chart_risk_distribution L (JArr sites) = Raise e)
  /\ (forall images e, append_chart images (Raise e) = images).
Proof.
  split; [|split; [|split; [|split; [|split]]]].
  - intros fields.
    auto using pick_cost_absent, pick_benefit_absent, site_risk_absent.
  - intros fields v. unfold pick_cost, pick_benefit, site_risk. cbn.
    repeat split; intros ->; reflexivity.
  - repeat split.
  - apply chart_benefit_vs_cost_raises.
  - apply chart_risk_distribution_raises.
  - reflexivity.
Qed.

Lemma numeric_fields_default_only_when_absent_witness :
  pick_cost Reference.lib (JObj [("id", JStr "A")]) = Ok 0%float
  /\ (exists e,
         chart_benefit_vs_cost Reference.lib
           (JArr [pick_A; JObj [("id", JStr "B"); ("cost", JStr "n/a")]]) = Raise e).
Proof.
  split.
  - apply (numeric_fields_default_only_when_absent Reference.lib). reflexivity.
  - apply (proj1 (proj2 (proj2 (proj2 (numeric_fields_default_only_when_absent
                                          Reference.lib)))))
      with (p := JObj [("id", JStr "B"); ("cost", JStr "n/a")]).
    + right. left. reflexivity.
    + left. exists ValueError. reflexivity.
Defined.

(** C2 as stated fails on a pick whose cost is [null] and on a site whose
    [Risk] is [null]: the value does not count as 0, [float(None)] raises
    [TypeError] and the builder fails with it. *)
Lemma null_cost_is_not_zero :
  pick_cost Reference.lib (JObj [("id", JStr "A"); ("cost", JNull); ("benefit", JFloat 0.5)])
    = Raise TypeError
  /\ chart_benefit_vs_cost Reference.lib
       (JArr [JObj [("id", JStr "A"); ("cost", JNull); ("benefit", JFloat 0.5)]])
     = Raise TypeError
  /\ chart_risk_distribution Reference.lib (JArr [JObj [("Risk", JNull)]])
     = Raise TypeError
  /\ images_of
       (fst (build_output Reference.lib Reference.no_mcp
               (JArr [JObj [("id", JStr "A"); ("cost", JNull); ("benefit", JFloat 0.5)]])
               (JArr [JObj [("Risk", JNull)]]) tt))
     = [].
Proof. repeat split. Qed.

(** *** One pick and no site *)

Example loads_doc_A :
  Reference.loads Reference.doc_A = Ok (JObj [("picks", JArr [pick_A]); ("sites", JArr [])]).
Proof. vm_compute. reflexivity. Qed.

Example read_input_doc_A :
  read_input Reference.lib (Reference.bytes_of Reference.doc_A) = Ok (JArr [pick_A], JArr []).
Proof. vm_compute. reflexivity. Qed.

Lemma chart_benefit_vs_cost_A (L : pylib) :
  chart_benefit_vs_cost L (JArr [pick_A]) =
  (url <- fig_to_data_url L
            (benefit_vs_cost_figure [100]%float [0.5]%float ["A"] false) ;;
   Ok (benefit_vs_cost_image url)).
Proof. reflexivity. Qed.

Lemma render_graph_A (L : pylib) :
  render_graph L (JArr [pick_A]) =
  (pos <- spring_layout L graph_A 42 ;;
   url <- fig_to_data_url L (optimization_graph_figure graph_A pos) ;;
   Ok (optimization_graph_image url)).
Proof. reflexivity. Qed.

(** With an MCP server whose first call fails the run prints the same
    two images; with one that works, the server has received the mirror
    of the graph. *)
Example broken_mcp_run :
  images_printed (main Reference.lib Reference.broken_mcp
                    (Reference.bytes_of Reference.doc_A)) =
  images_printed (main Reference.lib Reference.no_mcp
                    (Reference.bytes_of Reference.doc_A)).
Proof. vm_compute. reflexivity. Qed.

Example recording_mcp_run :
  snd (chart_optimization_graph Reference.lib Reference.recording_mcp (JArr [pick_A]) []) =
  [Reference.Created "optimization_graph" "undirected";
   Reference.Nodes "optimization_graph" ["Budget"; "RiskReduction"];
   Reference.Nodes "optimization_graph" ["A"];
   Reference.Edges "optimization_graph" [("A", "Budget"); ("A", "RiskReduction")]].
Proof. vm_compute. reflexivity. Qed.

(** C6, as the code has it.  When networkx is importable and the two
    figures render, the document with the single pick [A] (cost 100,
    benefit 0.5) and no site gives exactly two images, the cost/benefit
    chart and then the relationship graph, and [meta.count] is 2. *)
Theorem one_pick_gives_two_charts (L : pylib) (M : mcp) (stdin : list byte)
    (png1 png3 : list byte) (pos : layout) :
  read_input L stdin = Ok (JArr [pick_A], JArr []) ->
  nx L = true ->
  savefig L (benefit_vs_cost_figure [100]%float [0.5]%float ["A"] false) = Ok png1 ->
  spring_layout L graph_A 42 = Ok pos ->
  savefig L (optimization_graph_figure graph_A pos) = Ok png3 ->
  main L M stdin =
  Exited
    (JObj [("images",
            JArr [benefit_vs_cost_image (data_url_prefix ++ Base64.b64encode png1);
                  optimization_graph_image (data_url_prefix ++ Base64.b64encode png3)]);
           ("meta", JObj [("nx_mcp_used", JBool (HAS_NX_MCP M)); ("count", JInt 2)])]).
Proof.
  intros Hread Hnx Hpng1 Hpos Hpng3. unfold main. rewrite Hread.
  rewrite build_output_images, chart_optimization_graph_fst, Hnx.
  rewrite chart_benefit_vs_cost_A, render_graph_A.
  unfold fig_to_data_url. rewrite Hpos. cbn [bind]. rewrite Hpng1, Hpng3.
  reflexivity.
Qed.

Lemma one_pick_gives_two_charts_witness :
  main Reference.lib Reference.recording_mcp (Reference.bytes_of Reference.doc_A) =
  Exited
    (JObj [("images",
            JArr [benefit_vs_cost_image "data:image/png;base64,iVBORw0KGgoBAgYHCAk=";
                  optimization_graph_image "data:image/png;base64,iVBORw0KGgoKCgsMDQg="]);
           ("meta", JObj [("nx_mcp_used", JBool true); ("count", JInt 2)])]).
Proof.
  apply (one_pick_gives_two_charts Reference.lib Reference.recording_mcp
           (Reference.bytes_of Reference.doc_A)
           (Reference.draw (benefit_vs_cost_figure [100]%float [0.5]%float ["A"] false))
           (Reference.draw
              (optimization_graph_figure graph_A (Reference.line_up (nodes graph_A) 0%float)))
           (Reference.line_up (nodes graph_A) 0%float));
    vm_compute; reflexivity.
Defined.

(** C6 as stated fails where networkx is not installed: the graph
    builder returns [None] at its first test, and the same document gives
    one image and a count of 1. *)
Lemma one_pick_without_networkx :
  nx Reference.lib_without_networkx = false
  /\ chart_optimization_graph Reference.lib_without_networkx Reference.no_mcp
       (JArr [pick_A]) tt = (Ok JNull, tt)
  /\ main Reference.lib_without_networkx Reference.no_mcp
       (Reference.bytes_of Reference.doc_A) =
     Exited
       (JObj [("images",
               JArr [benefit_vs_cost_image "data:image/png;base64,iVBORw0KGgoBAgYHCAk="]);
              ("meta", JObj [("nx_mcp_used", JBool false); ("count", JInt 1)])]).
Proof.
  split; [reflexivity | split; [reflexivity | vm_compute; reflexivity]].
Qed.

(** *** Benefit against cost *)

Lemma max2_idem (c : float) : max2 1 (max2 1 c) = max2 1 c.
Proof.
  unfold max2. destruct (1 <? c)%float eqn:E; [now rewrite E | reflexivity].
Qed.

Lemma one_lt_not_zero (c : float) : (1 <? c)%float = true -> (c =? 0)%float = false.
Proof.
  intros H. rewrite FloatAxioms.ltb_spec in H. rewrite FloatAxioms.eqb_spec.
  replace (Prim2SF 1) with (S754_finite false 4503599627370496 (-52)) in H
    by (vm_compute; reflexivity).
  replace (Prim2SF 0) with (S754_zero false) by (vm_compute; reflexivity).
  destruct (Prim2SF c) as [s|s| |s m e]; try discriminate H.
  - now destruct s.
  - now destruct s.
Qed.

(** A cost floored at 1 is never zero: the division cannot raise. *)
Lemma floored_not_zero (c : float) : (max2 1 c =? 0)%float = false.
Proof.
  unfold max2. destruct (1 <? c)%float eqn:E; [now apply one_lt_not_zero | reflexivity].
Qed.

Lemma fold_pick_in (pick : float -> float -> bool) (rest : list float) (x : float) :
  In (fold_left (fun best y => if pick best y then y else best) rest x) (x :: rest).
Proof.
  revert x. induction rest as [|y rest IH]; intros x; cbn [fold_left].
  - now left.
  - destruct (pick x y).
    + right. apply IH.
    + destruct (IH x) as [H|H]; [now left | right; now right].
Qed.

Lemma py_max_in (xs : list float) (hi : float) : py_max xs = Ok hi -> In hi xs.
Proof.
  destruct xs as [|x rest]; cbn; [discriminate|].
  intros H. inversion H. apply (fold_pick_in (fun best y => (best <? y)%float)).
Qed.

Lemma py_min_in (xs : list float) (lo : float) : py_min xs = Ok lo -> In lo xs.
Proof.
  destruct xs as [|x rest]; cbn; [discriminate|].
  intros H. inversion H. apply (fold_pick_in (fun best y => (y <? best)%float)).
Qed.

(** The order of binary64 floats: what is below a smaller value is
    below a larger one, and what is above a larger value is above a
    smaller one ([nan] compares false with everything). *)
Lemma SFltb_irrefl (a : spec_float) : SFltb a a = false.
Proof.
  unfold SFltb. destruct a as [s|s| |s m e]; cbn; try reflexivity.
  - now destruct s.
  - destruct s; rewrite Z.compare_refl, ?Pos.compare_cont_spec, Pos.compare_refl;
      reflexivity.
Qed.

Lemma SFltb_chain_up (a b c : spec_float) :
  SFltb a b = true -> SFltb a c = false -> SFltb b c = false.
Proof.
  unfold SFltb.
  destruct a as [sa|sa| |sa ma ea], b as [sb|sb| |sb mb eb], c as [sc|sc| |sc mc ec];
    cbn; try discriminate; try reflexivity;
    repeat match goal with s : bool |- _ => destruct s end;
    cbn; try discriminate; try reflexivity.
  all: destruct (Z.compare_spec ea eb), (Z.compare_spec ea ec), (Z.compare_spec eb ec);
    try discriminate; try reflexivity; try lia; subst;
    rewrite ?Pos.compare_cont_spec; cbn;
    destruct (Pos.compare_spec ma mb), (Pos.compare_spec ma mc), (Pos.compare_spec mb mc);
    cbn; try discriminate; try reflexivity; try lia.
Qed.

Lemma SFltb_chain_down (a b c : spec_float) :
  SFltb b a = true -> SFltb c a = false -> SFltb c b = false.
Proof.
  unfold SFltb.
  destruct a as [sa|sa| |sa ma ea], b as [sb|sb| |sb mb eb], c as [sc|sc| |sc mc ec];
    cbn; try discriminate; try reflexivity;
    repeat match goal with s : bool |- _ => destruct s end;
    cbn; try discriminate; try reflexivity.
  all: destruct (Z.compare_spec eb ea), (Z.compare_spec ec ea), (Z.compare_spec ec eb);
    try discriminate; try reflexivity; try lia; subst;
    rewrite ?Pos.compare_cont_spec; cbn;
    destruct (Pos.compare_spec mb ma), (Pos.compare_spec mc ma), (Pos.compare_spec mc mb);
    cbn; try discriminate; try reflexivity; try lia.
Qed.

Lemma fold_max_greatest (rest seen : list float) (x : float) :
  (forall z, In z seen -> (x <? z)%float = false) ->
  forall z, In z (seen ++ rest) ->
    (fold_left (fun best y => if (best <? y)%float then y else best) rest x <? z)%float = false.
Proof.
  revert seen x. induction rest as [|y rest IH]; intros seen x Hseen z Hz; cbn [fold_left].
  - rewrite app_nil_r in Hz. auto.
  - apply (IH (seen ++ [y])%list); [|now rewrite <- app_assoc].
    intros w Hw. apply in_app_iff in Hw as [Hw|[<-|[]]].
    + destruct (x <? y)%float eqn:E; [|auto].
      specialize (Hseen w Hw). rewrite FloatAxioms.ltb_spec in *.
      eapply SFltb_chain_up; eassumption.
    + destruct (x <? y)%float eqn:E; [|assumption].
      rewrite FloatAxioms.ltb_spec. apply SFltb_irrefl.
Qed.

Lemma fold_min_least (rest seen : list float) (x : float) :
  (forall z, In z seen -> (z <? x)%float = false) ->
  forall z, In z (seen ++ rest) ->
    (z <? fold_left (fun best y => if (y <? best)%float then y else best) rest x)%float = false.
Proof.
  revert seen x. induction rest as [|y rest IH]; intros seen x Hseen z Hz; cbn [fold_left].
  - rewrite app_nil_r in Hz. auto.
  - apply (IH (seen ++ [y])%list); [|now rewrite <- app_assoc].
    intros w Hw. apply in_app_iff in Hw as [Hw|[<-|[]]].
    + destruct (y <? x)%float eqn:E; [|auto].
      specialize (Hseen w Hw). rewrite FloatAxioms.ltb_spec in *.
      eapply SFltb_chain_down; eassumption.
    + destruct (y <? x)%float eqn:E; [|assumption].
      rewrite FloatAxioms.ltb_spec. apply SFltb_irrefl.
Qed.

(** [max(xs)] is an item that no item exceeds, [min(xs)] an item that
    exceeds no item. *)
Lemma py_max_greatest (xs : list float) (hi : float) :
  py_max xs = Ok hi -> In hi xs /\ forall x, In x xs -> (hi <? x)%float = false.
Proof.
  intros H. split; [now apply py_max_in|].
  destruct xs as [|x0 rest]; [discriminate|]. cbn in H. inversion H.
  apply (fold_max_greatest rest [x0]).
  intros z [<-|[]]. rewrite FloatAxioms.ltb_spec. apply SFltb_irrefl.
Qed.

Lemma py_min_least (xs : list float) (lo : float) :
  py_min xs = Ok lo -> In lo xs /\ forall x, In x xs -> (x <? lo)%float = false.
Proof.
  intros H. split; [now apply py_min_in|].
  destruct xs as [|x0 rest]; [discriminate|]. cbn in H. inversion H.
  apply (fold_min_least rest [x0]).
  intros z [<-|[]]. rewrite FloatAxioms.ltb_spec. apply SFltb_irrefl.
Qed.





(** *** Further properties of the script *)

(** X1.  How the process ends, for every standard input.  It dies of an
    uncaught exception in exactly two cases: the decoder of standard
    input raises on the bytes (the exception is the decoder's), or the
    bytes decode to a non-empty text that [json.loads] accepts and turns
    into something other than a dict (the exception is
    [AttributeError]).  It exits with status 0 exactly when the bytes
    decode to the empty text, to a text that [json.loads] rejects, or to
    a JSON object. *)
Theorem main_exit_status (L : pylib) (M : mcp) (stdin : list byte) :
  (forall e,
      main L M stdin = Crashed e <->
      stdin_read L stdin = Raise e
      \/ (e = AttributeError
          /\ exists raw v, stdin_read L stdin = Ok raw /\ raw <> ""
                           /\ json_loads L raw = Ok v /\ is_dict v = false))
  /\ ((exists out, main L M stdin = Exited out) <->
      exists raw,
        stdin_read L stdin = Ok raw
        /\ (raw = "" \/ (exists e, json_loads L raw = Raise e)
            \/ (exists fields, json_loads L raw = Ok (JObj fields)))).
Proof.
  destruct (stdin_read L stdin) as [raw|e0] eqn:Hread.
  - assert (Hcases :
              (raw = "" \/ (exists e, json_loads L raw = Raise e)
               \/ (exists fields, json_loads L raw = Ok (JObj fields)))
              \/ (raw <> "" /\ exists v, json_loads L raw = Ok v /\ is_dict v = false)).
    { destruct (String.eqb_spec raw "") as [->|Hraw]; [now left; left|].
      destruct (json_loads L raw) as [v|e] eqn:E; [|left; right; left; eauto].
      destruct v; try (right; split; [assumption|]; eexists; split; reflexivity).
      left; right; right; eauto. }
    destruct Hcases as [Hgood|(Hraw & v & Hv & Hd)].
    + destruct (main_exits_on_object L M stdin raw Hread Hgood) as [out Hout].
      split.
      * intros e. rewrite Hout. split; [discriminate|].
        intros [H|(_ & raw' & v & H & Hraw & Hv & Hd)]; [discriminate|].
        exfalso. inversion H; subst raw'.
        destruct Hgood as [->|[[e' He]|[fields Hf]]];
          [now apply Hraw | congruence | rewrite Hf in Hv; inversion Hv; subst; discriminate].
      * split; eauto.
    + pose proof (main_crashes_on_non_object L M stdin raw v Hread Hraw Hv Hd) as Hcrash.
      split.
      * intros e. rewrite Hcrash. split.
        -- intros H. inversion H. right. split; [reflexivity|]. eauto 7.
        -- intros [H|[-> _]]; [discriminate | reflexivity].
      * split.
        -- intros [out Hout]. congruence.
        -- intros (raw' & H & Hgood). exfalso. inversion H; subst raw'.
           destruct Hgood as [->|[[e' He]|[fields Hf]]];
             [now apply Hraw | congruence | rewrite Hf in Hv; inversion Hv; subst; discriminate].
  - pose proof (main_crashes_on_undecodable L M stdin e0 Hread) as Hcrash.
    split.
    + intros e. rewrite Hcrash. split.
      * intros H. inversion H. now left.
      * intros [H|(_ & raw & v & H & _)]; [now inversion H | discriminate].
    + split.
      * intros [out Hout]. congruence.
      * intros (raw & H & _). discriminate.
Qed.

(** X2.  The relationship-graph builder never raises: whatever the
    picks, the libraries and the MCP server, it returns a descriptor or
    [None]. *)
Theorem graph_builder_never_raises (L : pylib) (M : mcp) (picks : json)
    (st : mcp_state M) :
  exists c, fst (chart_optimization_graph L M picks st) = Ok c.
Proof.
  rewrite chart_optimization_graph_fst.
  destruct (negb (truthy picks) || negb (nx L)); [eauto|].
  destruct (render_graph L picks); eauto.
Qed.

(** X3.  The text that [fig_to_data_url] puts after the prefix decodes,
    as base64, to the very bytes that [savefig] returned for the figure;
    and [fig_to_data_url] raises exactly when [savefig] does, with the
    same exception. *)
Theorem data_url_decodes_to_rendered_bytes (L : pylib) (fig : figure) :
  (forall url,
      fig_to_data_url L fig = Ok url ->
      exists png text,
        savefig L fig = Ok png
        /\ url = data_url_prefix ++ text
        /\ strip data_url_prefix url = Some text
        /\ Base64.b64decode text = Some png)
  /\ (forall png,
        savefig L fig = Ok png ->
        fig_to_data_url L fig = Ok (data_url_prefix ++ Base64.b64encode png))
  /\ (forall e, fig_to_data_url L fig = Raise e <-> savefig L fig = Raise e).
Proof.
  split; [|split].
  - intros url H. apply fig_to_data_url_inv in H as (png & Hs & ->).
    exists png, (Base64.b64encode png).
    split; [assumption | split; [reflexivity | split]].
    + apply strip_app.
    + apply b64decode_b64encode.
  - intros png H. unfold fig_to_data_url. now rewrite H.
  - intros e. unfold fig_to_data_url.
    destruct (savefig L fig) as [png|e']; cbn [bind]; split; congruence.
Qed.

Lemma data_url_decodes_to_rendered_bytes_witness :
  exists png text,
    savefig Reference.lib (risk_distribution_figure [0.5%float]) = Ok png
    /\ "data:image/png;base64,iVBORw0KGgoEBQYHCAk=" = data_url_prefix ++ text
    /\ strip data_url_prefix "data:image/png;base64,iVBORw0KGgoEBQYHCAk=" = Some text
    /\ Base64.b64decode text = Some png.
Proof.
  apply (proj1 (data_url_decodes_to_rendered_bytes Reference.lib
                  (risk_distribution_figure [0.5%float]))).
  reflexivity.
Defined.

(** *** The order of floats, continued *)

Lemma SFltb_leb (a b : spec_float) : SFltb a b = true -> SFleb a b = true.
Proof.
  unfold SFltb, SFleb. destruct (SFcompare a b) as [[| |]|]; congruence.
Qed.


Lemma ltb_leb (a b : float) : (a <? b)%float = true -> (a <=? b)%float = true.
Proof.
  rewrite FloatAxioms.ltb_spec, FloatAxioms.leb_spec. apply SFltb_leb.
Qed.


(** [max(a, b)] is at least [a], for a number [a]. *)
Lemma max2_at_least (a b : float) :
  (a <=? a)%float = true -> (a <=? max2 a b)%float = true.
Proof.
  intros Ha. unfold max2. destruct (a <? b)%float eqn:E; [now apply ltb_leb | assumption].
Qed.

Lemma floored_at_least_one (c : float) : (1 <=? max2 1 c)%float = true.
Proof. now apply max2_at_least. Qed.

Lemma comprehension_Forall2 {A B : Type} (f : A -> res B) (l : list A) (ys : list B) :
  comprehension f l = Ok ys -> Forall2 (fun x y => f x = Ok y) l ys.
Proof.
  revert ys. induction l as [|x l IH]; intros ys H; cbn in H.
  - inversion H. constructor.
  - destruct (f x) as [y|e] eqn:Ex; cbn [bind] in H; [|discriminate].
    destruct (comprehension f l) as [ys'|e]; cbn [bind] in H; [|discriminate].
    inversion H. constructor; auto.
Qed.

Lemma Forall2_comprehension {A B : Type} (f : A -> res B) (l : list A) (ys : list B) :
  Forall2 (fun x y => f x = Ok y) l ys -> comprehension f l = Ok ys.
Proof.
  induction 1 as [|x y l ys Hx _ IH]; cbn; [reflexivity|].
  now rewrite Hx, IH.
Qed.

(** *** The scatter plot *)

(** X4.  Every cost the scatter plot receives is a number not below 1,
    whatever the pick holds (a zero, negative or [nan] cost is drawn at
    1): the logarithmic axis never meets a non-positive value. *)
Theorem plotted_costs_at_least_one (L : pylib) (items : list json) (xs : list float) :
  comprehension (pick_x L) items = Ok xs ->
  Forall (fun x => (1 <=? x)%float = true) xs.
Proof.
  intros H. apply comprehension_Forall2 in H.
  induction H as [|p x items xs Hp _ IH]; constructor; [|assumption].
  unfold pick_x in Hp. destruct (pick_cost L p) as [c|e]; cbn [bind] in Hp; [|discriminate].
  inversion Hp. apply floored_at_least_one.
Qed.

Lemma plotted_costs_at_least_one_witness :
  Forall (fun x => (1 <=? x)%float = true) [100; 1; 1; 1]%float.
Proof.
  apply (plotted_costs_at_least_one Reference.lib
           [pick_A; JObj [("cost", JInt (-5))]; JObj [("cost", JFloat nan)]; JObj []]).
  reflexivity.
Defined.

Lemma Forall2_combine {A B C : Type} (R1 : A -> B -> Prop) (R2 : A -> C -> Prop)
    (l : list A) (bs : list B) (cs : list C) :
  Forall2 R1 l bs -> Forall2 R2 l cs ->
  Forall2 (fun x t => R1 x (fst t) /\ R2 x (snd t)) l (combine bs cs).
Proof.
  intros H1. revert cs. induction H1 as [|x b l bs Hb _ IH]; intros cs H2.
  - inversion H2. constructor.
  - inversion H2; subst. cbn. constructor; auto.
Qed.

(** X5.  The three comprehensions of the cost/benefit builder stay
    aligned: [zip(xs, ys, labels)] has one entry per pick, in the order
    of the picks, holding that pick's own floored cost, benefit and
    label.  No pick loses its annotation to the truncation of [zip]. *)
Theorem every_pick_is_annotated (L : pylib) (items : list json)
    (xs ys : list float) (labels : list string) :
  comprehension (pick_x L) items = Ok xs ->
  comprehension (pick_benefit L) items = Ok ys ->
  comprehension (pick_label L) items = Ok labels ->
  List.length (combine (combine xs ys) labels) = List.length items
  /\ Forall2 (fun p t =>
                pick_x L p = Ok (fst (fst t))
                /\ pick_benefit L p = Ok (snd (fst t))
                /\ pick_label L p = Ok (snd t))
       items (combine (combine xs ys) labels).
Proof.
  intros Hx Hy Hl.
  assert (F : Forall2 (fun p t =>
                         pick_x L p = Ok (fst (fst t))
                         /\ pick_benefit L p = Ok (snd (fst t))
                         /\ pick_label L p = Ok (snd t))
                items (combine (combine xs ys) labels)).
  { apply comprehension_Forall2 in Hx, Hy, Hl.
    pose proof (Forall2_combine _ _ _ _ _ (Forall2_combine _ _ _ _ _ Hx Hy) Hl) as F.
    eapply Forall2_impl; [|exact F]. cbn. tauto. }
  split; [|exact F]. symmetry. eapply Forall2_length; eassumption.
Qed.

Lemma every_pick_is_annotated_witness :
  List.length (combine (combine [100; 1]%float [0.5; 0]%float) ["A"; "?"]) = 2%nat
  /\ Forall2 (fun p t =>
                pick_x Reference.lib p = Ok (fst (fst t))
                /\ pick_benefit Reference.lib p = Ok (snd (fst t))
                /\ pick_label Reference.lib p = Ok (snd t))
       [pick_A; JObj []] (combine (combine [100; 1]%float [0.5; 0]%float) ["A"; "?"]).
Proof.
  apply (every_pick_is_annotated Reference.lib [pick_A; JObj []]); reflexivity.
Defined.

(** *** The shape of the output *)

Lemma described_kind (L : pylib) (fig : figure) (image : string -> json) :
  (forall url, image url <> JNull) ->
  exists png,
    produced (url <- fig_to_data_url L fig ;; Ok (image url)) = optional_image image png
    /\ (forall bytes, png = Some bytes -> savefig L fig = Ok bytes).
Proof.
  intros Himage. unfold fig_to_data_url.
  destruct (savefig L fig) as [png|e]; cbn [bind].
  - exists (Some png). split; [|now intros bytes [= ->]].
    cbn [produced optional_image].
    specialize (Himage (data_url_prefix ++ Base64.b64encode png)).
    destruct (image (data_url_prefix ++ Base64.b64encode png)); congruence.
  - exists None. split; [reflexivity | discriminate].
Qed.

Lemma chart_benefit_vs_cost_kind (L : pylib) (picks : json) :
  exists png,
    produced (chart_benefit_vs_cost L picks) = optional_image benefit_vs_cost_image png
    /\ (forall bytes,
          png = Some bytes ->
          exists xs ys labels logx,
            savefig L (benefit_vs_cost_figure xs ys labels logx) = Ok bytes).
Proof.
  unfold chart_benefit_vs_cost.
  destruct (truthy picks); cbn [negb];
    [|exists None; split; [reflexivity | discriminate]].
  repeat (step; [|exists None; split; [reflexivity | discriminate]]).
  match goal with
  | |- context [fig_to_data_url L ?fig] =>
      destruct (described_kind L fig benefit_vs_cost_image) as (png & Hp & Hs);
        [discriminate|]
  end.
  exists png. split; [exact Hp|]. intros bytes Hb. eauto 6.
Qed.

Lemma chart_risk_distribution_kind (L : pylib) (sites : json) :
  exists png,
    produced (chart_risk_distribution L sites) = optional_image risk_distribution_image png
    /\ (forall bytes,
          png = Some bytes ->
          exists risks, savefig L (risk_distribution_figure risks) = Ok bytes).
Proof.
  unfold chart_risk_distribution.
  destruct (truthy sites); cbn [negb];
    [|exists None; split; [reflexivity | discriminate]].
  repeat (step; [|exists None; split; [reflexivity | discriminate]]).
  match goal with |- context [match ?l with [] => _ | _ => _ end] => destruct l end;
    [exists None; split; [reflexivity | discriminate]|].
  match goal with
  | |- context [fig_to_data_url L ?fig] =>
      destruct (described_kind L fig risk_distribution_image) as (png & Hp & Hs);
        [discriminate|]
  end.
  exists png. split; [exact Hp|]. intros bytes Hb. eauto.
Qed.

Lemma chart_optimization_graph_kind (L : pylib) (M : mcp) (picks : json)
    (st : mcp_state M) :
  exists png,
    produced (fst (chart_optimization_graph L M picks st)) =
    optional_image optimization_graph_image png
    /\ (forall bytes,
          png = Some bytes ->
          exists G pos, savefig L (optimization_graph_figure G pos) = Ok bytes).
Proof.
  rewrite chart_optimization_graph_fst.
  destruct (negb (truthy picks) || negb (nx L));
    [exists None; split; [reflexivity | discriminate]|].
  assert (H : exists png,
             produced (render_graph L picks) = optional_image optimization_graph_image png
             /\ (forall bytes,
                   png = Some bytes ->
                   exists G pos, savefig L (optimization_graph_figure G pos) = Ok bytes)).
  { unfold render_graph.
    repeat (step; [|exists None; split; [reflexivity | discriminate]]).
    match goal with
    | |- context [fig_to_data_url L ?fig] =>
        destruct (described_kind L fig optimization_graph_image) as (png & Hp & Hs);
          [discriminate|]
    end.
    exists png. split; [exact Hp|]. intros bytes Hb. eauto. }
  destruct H as (png & H & Hs). exists png. split; [|exact Hs].
  destruct (render_graph L picks); [assumption|].
  cbn in H. now rewrite <- H.
Qed.

(** X6.  Whatever the input, the output holds at most one image of each
    kind, in the order cost/benefit, risk distribution, relationship
    graph, each with its fixed title and description; the data URL of
    each image encodes the bytes that [savefig] returned for a figure of
    that kind (a scatter plot, a histogram over the fixed bins, a drawing
    of a graph); so [meta.count] is between 0 and 3. *)
Theorem output_has_one_image_per_kind (L : pylib) (M : mcp) (picks sites : json)
    (st : mcp_state M) :
  exists png1 png2 png3,
    let images :=
      (optional_image benefit_vs_cost_image png1
         ++ optional_image risk_distribution_image png2
         ++ optional_image optimization_graph_image png3)%list in
    fst (build_output L M picks sites st) = output images (HAS_NX_MCP M)
    /\ (List.length images <= 3)%nat
    /\ (forall bytes,
          png1 = Some bytes ->
          exists xs ys labels logx,
            savefig L (benefit_vs_cost_figure xs ys labels logx) = Ok bytes)
    /\ (forall bytes,
          png2 = Some bytes ->
          exists risks, savefig L (risk_distribution_figure risks) = Ok bytes)
    /\ (forall bytes,
          png3 = Some bytes ->
          exists G pos, savefig L (optimization_graph_figure G pos) = Ok bytes).
Proof.
  destruct (chart_benefit_vs_cost_kind L picks) as (png1 & H1 & S1).
  destruct (chart_risk_distribution_kind L sites) as (png2 & H2 & S2).
  destruct (chart_optimization_graph_kind L M picks st) as (png3 & H3 & S3).
  exists png1, png2, png3. cbv zeta.
  rewrite build_output_images, H1, H2, H3.
  split; [reflexivity | split; [|auto]].
  destruct png1, png2, png3; cbn; lia.
Qed.

(** *** Ill-formed picks and sites *)

Lemma py_get_not_dict (v : json) (key : string) (default : json) :
  is_dict v = false -> py_get v key default = Raise AttributeError.
Proof. destruct v; cbn; congruence. Qed.

Lemma pick_cost_not_dict (L : pylib) (p : json) :
  is_dict p = false -> pick_cost L p = Raise AttributeError.
Proof. intros H. unfold pick_cost. now rewrite py_get_not_dict. Qed.

Lemma pick_label_not_dict (L : pylib) (p : json) :
  is_dict p = false -> pick_label L p = Raise AttributeError.
Proof. intros H. unfold pick_label. now rewrite py_get_not_dict. Qed.

Lemma site_risk_not_dict (L : pylib) (s : json) :
  is_dict s = false -> site_risk L s = Raise AttributeError.
Proof. intros H. unfold site_risk. now rewrite py_get_not_dict. Qed.

Lemma add_picks_raises (L : pylib) (items : list json) (p : json) :
  In p items -> (forall G, exists e, add_pick L G p = Raise e) ->
  forall G, exists e, add_picks L G items = Raise e.
Proof.
  intros Hin Hp. induction items as [|a items IH]; intros G; [easy|].
  cbn. destruct (add_pick L G a) as [G'|e] eqn:Ea; cbn [bind]; [|eauto].
  destruct Hin as [->|Hin]; [|auto].
  destruct (Hp G) as [e He]. congruence.
Qed.

Lemma render_graph_raises (L : pylib) (items : list json) (p : json) :
  In p items -> (forall G, exists e, add_pick L G p = Raise e) ->
  exists e, render_graph L (JArr items) = Raise e.
Proof.
  intros Hin Hp. unfold render_graph. cbn [py_iter bind].
  destruct (add_picks_raises L items p Hin Hp hub_graph) as [e He].
  unfold hub_graph in He. rewrite He. cbn. eauto.
Qed.

Lemma graph_none_when_render_raises (L : pylib) (M : mcp) (picks : json)
    (st : mcp_state M) :
  (exists e, render_graph L picks = Raise e) ->
  fst (chart_optimization_graph L M picks st) = Ok JNull.
Proof.
  intros [e He]. rewrite chart_optimization_graph_fst, He.
  now destruct (negb (truthy picks) || negb (nx L)).
Qed.

(** The items a truthy value that is not a list iterates over are
    strings: characters or keys. *)
Lemma py_iter_not_array (v : json) (items : list json) :
  is_array v = false -> truthy v = true -> py_iter v = Ok items ->
  exists s rest, items = JStr s :: rest.
Proof.
  destruct v as [| | | |s| |fields]; cbn; try discriminate.
  - destruct s as [|c s]; [discriminate|]. intros _ _ H. inversion H. cbn. eauto.
  - destruct fields as [|[k v] fields]; [discriminate|]. intros _ _ H. inversion H. cbn. eauto.
Qed.

(** X7.  A [picks] value that is not a list (a number, a string, an
    object, [true]) yields neither pick-based chart, and a [sites] value
    that is not a list yields no risk chart: the builders return [None] or
    raise, and the relationship builder returns [None]. *)
Theorem non_list_input_gives_no_chart (L : pylib) (M : mcp) :
  (forall picks st,
      is_array picks = false ->
      produced (chart_benefit_vs_cost L picks) = []
      /\ fst (chart_optimization_graph L M picks st) = Ok JNull)
  /\ (forall sites,
        is_array sites = false -> produced (chart_risk_distribution L sites) = []).
Proof.
  split.
  - intros picks st Harr. split.
    + unfold chart_benefit_vs_cost.
      destruct (truthy picks) eqn:Ht; cbn [negb]; [|reflexivity].
      destruct (py_iter picks) as [items|e] eqn:Ei; cbn [bind]; [|reflexivity].
      destruct (py_iter_not_array picks items Harr Ht Ei) as (s & rest & ->).
      cbn [comprehension]. unfold pick_x.
      now rewrite pick_cost_not_dict.
    + rewrite chart_optimization_graph_fst.
      destruct (truthy picks) eqn:Ht; cbn [negb orb]; [|reflexivity].
      destruct (nx L); cbn [negb]; [|reflexivity].
      unfold render_graph.
      destruct (py_iter picks) as [items|e] eqn:Ei; cbn [bind]; [|reflexivity].
      destruct (py_iter_not_array picks items Harr Ht Ei) as (s & rest & ->).
      cbn [add_picks]. unfold add_pick.
      now rewrite pick_label_not_dict.
  - intros sites Harr. unfold chart_risk_distribution.
    destruct (truthy sites) eqn:Ht; cbn [negb]; [|reflexivity].
    destruct (py_iter sites) as [items|e] eqn:Ei; cbn [bind]; [|reflexivity].
    destruct (py_iter_not_array sites items Harr Ht Ei) as (s & rest & ->).
    cbn [filter is_none negb comprehension].
    now rewrite site_risk_not_dict.
Qed.

Lemma non_list_input_gives_no_chart_witness :
  images_of (fst (build_output Reference.lib Reference.no_mcp
                    (JStr "A") (JObj [("Risk", JFloat 0.5)]) tt)) = []
  /\ produced (chart_benefit_vs_cost Reference.lib (JInt 7)) = []
  /\ produced (chart_risk_distribution Reference.lib (JBool true)) = [].
Proof.
  split; [|split].
  - rewrite build_output_images, images_of_output.
    destruct (non_list_input_gives_no_chart Reference.lib Reference.no_mcp) as [Hp Hs].
    destruct (Hp (JStr "A") tt eq_refl) as [-> ->].
    now rewrite (Hs (JObj [("Risk", JFloat 0.5)]) eq_refl).
  - now apply (non_list_input_gives_no_chart Reference.lib Reference.no_mcp).
  - now apply (non_list_input_gives_no_chart Reference.lib Reference.no_mcp).
Defined.

(** X8.  One entry of [picks] that is not an object (a number, a string,
    a list, [null]) spoils both pick-based charts, however well-formed
    the other picks are: the cost/benefit builder raises and the
    relationship builder returns [None].  One entry of [sites] that is
    neither an object nor [null] makes the risk builder raise. *)
Theorem non_object_entry_spoils_the_chart (L : pylib) (M : mcp) :
  (forall items p st,
      In p items -> is_dict p = false ->
      (exists e, chart_benefit_vs_cost L (JArr items) = Raise e)
      /\ fst (chart_optimization_graph L M (JArr items) st) = Ok JNull)
  /\ (forall items s,
        In s items -> is_dict s = false -> is_none s = false ->
        exists e, chart_risk_distribution L (JArr items) = Raise e).
Proof.
  split.
  - intros items p st Hin Hp. split.
    + apply (chart_benefit_vs_cost_raises L items p Hin).
      left. rewrite pick_cost_not_dict by assumption. eauto.
    + apply graph_none_when_render_raises, (render_graph_raises L items p Hin).
      intros G. unfold add_pick. rewrite pick_label_not_dict by assumption. cbn. eauto.
  - intros items s Hin Hs Hnone.
    apply (chart_risk_distribution_raises L items s Hin Hnone).
    rewrite site_risk_not_dict by assumption. eauto.
Qed.

Lemma non_object_entry_spoils_the_chart_witness :
  (exists e, chart_benefit_vs_cost Reference.lib (JArr [pick_A; JNull]) = Raise e)
  /\ fst (chart_optimization_graph Reference.lib Reference.recording_mcp
            (JArr [pick_A; JNull]) []) = Ok JNull.
Proof.
  apply (proj1 (non_object_entry_spoils_the_chart Reference.lib Reference.recording_mcp)
           [pick_A; JNull] JNull []); [right; left; reflexivity | reflexivity].
Defined.

(** *** The two pick-based builders accept the same picks *)

Lemma comprehension_ok_iff {A B : Type} (f : A -> res B) (l : list A) :
  (exists ys, comprehension f l = Ok ys) <-> Forall (fun x => exists y, f x = Ok y) l.
Proof.
  split.
  - intros [ys H]. apply comprehension_Forall2 in H.
    induction H; constructor; eauto.
  - induction 1 as [|x l [y Hy] _ [ys IH]]; cbn; [eauto|].
    rewrite Hy, IH. cbn. eauto.
Qed.

Lemma py_float_default_cost (L : pylib) (fields : list (string * json)) :
  (exists c, py_float L (match dict_get "cost" fields with Some v => v | None => JInt 1 end)
             = Ok c)
  <-> (exists c, py_float L (match dict_get "cost" fields with Some v => v | None => JInt 0 end)
                 = Ok c).
Proof.
  destruct (dict_get "cost" fields); [tauto|].
  split; intros _; [exists 0%float | exists 1%float]; reflexivity.
Qed.

(** Whether a turn of the graph loop succeeds does not depend on the
    graph: it succeeds on the picks the scatter plot can convert. *)
Lemma add_pick_ok_iff (L : pylib) (G : graph) (p : json) :
  (exists G', add_pick L G p = Ok G')
  <-> (exists x, pick_x L p = Ok x) /\ (exists y, pick_benefit L p = Ok y)
      /\ (exists lab, pick_label L p = Ok lab).
Proof.
  destruct p as [| | | | | |fields];
    try (split; [intros [G' H]; discriminate H | intros (_ & _ & [lab H]); discriminate H]).
  unfold add_pick, pick_x, pick_cost, pick_benefit, pick_label. cbn [py_get bind].
  pose proof (py_float_default_cost L fields) as Hc.
  destruct (py_float L (match dict_get "cost" fields with Some v => v | None => JInt 1 end))
    as [c1|e1]; cbn [bind].
  - destruct (proj1 Hc (ex_intro _ c1 eq_refl)) as [c0 ->]. cbn [bind].
    destruct (py_float L (match dict_get "benefit" fields with
                          | Some v => v | None => JFloat 0 end)) as [b|e]; cbn [bind].
    + split; eauto 6.
    + split; [intros [G' H]; discriminate H | intros (_ & [y H] & _); discriminate H].
  - split; [intros [G' H]; discriminate H|].
    intros ([x Hx] & _). exfalso.
    destruct (py_float L (match dict_get "cost" fields with Some v => v | None => JInt 0 end))
      as [c0|e0] eqn:E0; cbn [bind] in Hx; [|discriminate].
    destruct (proj2 Hc (ex_intro _ c0 eq_refl)) as [c1 H1]. discriminate.
Qed.

Lemma add_picks_ok_iff (L : pylib) (items : list json) (G : graph) :
  (exists G', add_picks L G items = Ok G')
  <-> Forall (fun p => (exists x, pick_x L p = Ok x) /\ (exists y, pick_benefit L p = Ok y)
                       /\ (exists lab, pick_label L p = Ok lab)) items.
Proof.
  revert G. induction items as [|p items IH]; intros G; cbn.
  - split; [constructor | eauto].
  - split.
    + intros [G' H].
      destruct (add_pick L G p) as [G1|e] eqn:E1; cbn [bind] in H; [|discriminate].
      constructor; [apply (add_pick_ok_iff L G p); eauto | apply (IH G1); eauto].
    + intros H. inversion H as [|? ? Hp Hrest]; subst.
      apply (add_pick_ok_iff L G p) in Hp as [G1 ->]. cbn [bind]. now apply IH.
Qed.

Lemma plotted_floor (L : pylib) (items : list json) (xs : list float) :
  comprehension (pick_x L) items = Ok xs ->
  Forall (fun x => exists c, x = max2 1 c) xs.
Proof.
  intros H. apply comprehension_Forall2 in H.
  induction H as [|p x items xs Hp _ IH]; constructor; [|assumption].
  unfold pick_x in Hp. destruct (pick_cost L p) as [c|e]; cbn [bind] in Hp; [|discriminate].
  inversion Hp. eauto.
Qed.

(** X9.  The cost/benefit builder and the relationship builder accept
    the same lists of picks: the graph loop succeeds exactly when the
    three comprehensions of the scatter plot do (the different defaults
    for an absent cost, 1 against 0, make no difference).  Hence, when a
    relationship chart was produced, the cost/benefit chart can only be
    missing because its own rendering failed. *)
Theorem builders_accept_the_same_picks (L : pylib) (M : mcp) (items : list json) :
  ((exists G, add_picks L hub_graph items = Ok G)
   <-> (exists xs ys labels,
           comprehension (pick_x L) items = Ok xs
           /\ comprehension (pick_benefit L) items = Ok ys
           /\ comprehension (pick_label L) items = Ok labels))
  /\ (forall st title description url,
        fst (chart_optimization_graph L M (JArr items) st)
          = Ok (descriptor title description url) ->
        exists fig,
          chart_benefit_vs_cost L (JArr items) =
          (url <- fig_to_data_url L fig ;; Ok (benefit_vs_cost_image url))).
Proof.
  assert (Hiff :
            (exists G, add_picks L hub_graph items = Ok G)
            <-> (exists xs ys labels,
                    comprehension (pick_x L) items = Ok xs
                    /\ comprehension (pick_benefit L) items = Ok ys
                    /\ comprehension (pick_label L) items = Ok labels)).
  { rewrite add_picks_ok_iff. split.
    - intros H.
      assert (Hx : Forall (fun p => exists x, pick_x L p = Ok x) items)
        by (eapply Forall_impl; [|exact H]; cbn; tauto).
      assert (Hy : Forall (fun p => exists y, pick_benefit L p = Ok y) items)
        by (eapply Forall_impl; [|exact H]; cbn; tauto).
      assert (Hl : Forall (fun p => exists lab, pick_label L p = Ok lab) items)
        by (eapply Forall_impl; [|exact H]; cbn; tauto).
      apply comprehension_ok_iff in Hx as [xs Hx], Hy as [ys Hy], Hl as [labels Hl].
      eauto 7.
    - intros (xs & ys & labels & Hx & Hy & Hl).
      assert (Fx := proj1 (comprehension_ok_iff _ _) (ex_intro _ xs Hx)).
      assert (Fy := proj1 (comprehension_ok_iff _ _) (ex_intro _ ys Hy)).
      assert (Fl := proj1 (comprehension_ok_iff _ _) (ex_intro _ labels Hl)).
      clear Hx Hy Hl. induction items as [|p items IH]; constructor.
      + inversion Fx; inversion Fy; inversion Fl; subst. auto.
      + inversion Fx; inversion Fy; inversion Fl; subst. auto. }
  split; [exact Hiff|].
  intros st title description url H.
  rewrite chart_optimization_graph_fst in H.
  destruct items as [|p items]; [discriminate H|].
  cbn [truthy negb orb] in H. destruct (nx L); cbn [negb] in H; [|discriminate H].
  destruct (render_graph L (JArr (p :: items))) as [c|e] eqn:Er; [|discriminate H].
  unfold render_graph in Er. cbn [py_iter bind] in Er.
  destruct (add_picks L (add_node "RiskReduction" (add_node "Budget" empty_graph))
              (p :: items)) as [G|e] eqn:EG; cbn [bind] in Er; [|discriminate].
  destruct (proj1 Hiff (ex_intro _ G EG)) as (xs & ys & labels & Hx & Hy & Hl).
  rewrite chart_benefit_vs_cost_list, Hx, Hy, Hl. cbn [bind].
  destruct (py_max xs) as [hi|e] eqn:Ehi; cbn [bind].
  - destruct (py_min xs) as [lo|e] eqn:Elo; cbn [bind].
    + assert (Hdiv : py_div hi (max2 1 lo) = Ok (hi / lo)%float).
      { pose proof (plotted_floor L (p :: items) xs Hx) as Hfl.
        apply py_min_in in Elo. rewrite Forall_forall in Hfl.
        destruct (Hfl lo Elo) as [c0 ->].
        rewrite max2_idem. unfold py_div. now rewrite floored_not_zero. }
      rewrite Hdiv. cbn [bind]. eauto.
    + destruct xs; [|discriminate Elo].
      apply comprehension_length in Hx. discriminate Hx.
  - destruct xs; [|discriminate Ehi].
    apply comprehension_length in Hx. discriminate Hx.
Qed.

(** *** The relationship graph *)











Lemma same_edge_weight (u v a b : string) (w w' : float) :
  same_edge u v (a, b, w) = same_edge u v (a, b, w').
Proof. reflexivity. Qed.
















(** *** The text of a data URL *)

Lemma digit_plain (n : N) : plain_char (Base64.digit n) = true.
Proof.
  unfold Base64.digit.
  assert (A : forallb plain_char Base64.alphabet = true) by (vm_compute; reflexivity).
  rewrite forallb_forall in A.
  destruct (nth_in_or_default (N.to_nat n) Base64.alphabet Base64.pad) as [H| ->];
    [now apply A | reflexivity].
Qed.

Lemma b64encode_plain (data : list byte) :
  forallb plain_char (list_ascii_of_string (Base64.b64encode data)) = true.
Proof.
  induction data as [|a|a b|a b c rest IH] using list_ind3;
    cbn [Base64.b64encode list_ascii_of_string forallb];
    rewrite ?digit_plain, ?IH; reflexivity.
Qed.

Lemma b64encode_length (data : list byte) :
  String.length (Base64.b64encode data) = (4 * ((List.length data + 2) / 3))%nat.
Proof.
  induction data as [|a|a b|a b c rest IH] using list_ind3;
    try reflexivity.
  cbn [Base64.b64encode String.length List.length]. rewrite IH.
  replace (S (S (S (List.length rest))) + 2)%nat with (1 * 3 + (List.length rest + 2))%nat
    by lia.
  rewrite Nat.div_add_l by lia. lia.
Qed.

Lemma list_ascii_of_string_app (s t : string) :
  list_ascii_of_string (s ++ t) = (list_ascii_of_string s ++ list_ascii_of_string t)%list.
Proof. induction s as [|c s IH]; cbn; [reflexivity | now rewrite IH]. Qed.

Lemma string_length_app (s t : string) :
  String.length (s ++ t) = (String.length s + String.length t)%nat.
Proof. induction s as [|c s IH]; cbn; [reflexivity | now rewrite IH]. Qed.

(** X12.  When the figure renders to [n] bytes, the data URL is the
    22-character prefix followed by 4 * ceil(n / 3) characters, and all
    its characters are printable ASCII other than the double quote and
    the backslash: [decode("ascii")] cannot fail on it and [json.dumps]
    writes it without escapes. *)
Theorem data_url_text (L : pylib) (fig : figure) (png : list byte) :
  savefig L fig = Ok png ->
  exists url,
    fig_to_data_url L fig = Ok url
    /\ String.length url = (22 + 4 * ((List.length png + 2) / 3))%nat
    /\ forallb plain_char (list_ascii_of_string url) = true.
Proof.
  intros H. unfold fig_to_data_url. rewrite H. cbn [bind].
  eexists. split; [reflexivity | split].
  - now rewrite string_length_app, b64encode_length.
  - rewrite list_ascii_of_string_app, forallb_app, b64encode_plain.
    reflexivity.
Qed.

Lemma data_url_text_witness :
  exists url,
    fig_to_data_url Reference.lib (risk_distribution_figure [0.5%float]) = Ok url
    /\ String.length url = (22 + 4 * ((14 + 2) / 3))%nat
    /\ forallb plain_char (list_ascii_of_string url) = true.
Proof.
  apply (data_url_text Reference.lib (risk_distribution_figure [0.5%float])
           (Reference.draw (risk_distribution_figure [0.5%float]))).
  reflexivity.
Defined.

Lemma string_app_inv (p s t : string) : (p ++ s = p ++ t)%string -> s = t.
Proof. induction p as [|c p IH]; cbn; intros H; [assumption | inversion H; auto]. Qed.

(** X13.  The data URL determines the image: two figures get the same
    data URL only when they were rendered to the same bytes. *)
Theorem data_url_determines_the_bytes (L1 L2 : pylib) (fig1 fig2 : figure) (url : string) :
  fig_to_data_url L1 fig1 = Ok url -> fig_to_data_url L2 fig2 = Ok url ->
  savefig L1 fig1 = savefig L2 fig2.
Proof.
  intros H1 H2.
  apply fig_to_data_url_inv in H1 as (png1 & -> & E1), H2 as (png2 & -> & E2).
  rewrite E1 in E2. apply string_app_inv in E2.
  apply (f_equal Base64.b64decode) in E2.
  rewrite !b64decode_b64encode in E2. congruence.
Qed.

Lemma data_url_determines_the_bytes_witness :
  savefig Reference.lib (risk_distribution_figure [0.5%float]) =
  savefig Reference.lib_without_networkx (risk_distribution_figure [0.5%float]).
Proof.
  apply (data_url_determines_the_bytes Reference.lib Reference.lib_without_networkx
           _ _ "data:image/png;base64,iVBORw0KGgoEBQYHCAk="); reflexivity.
Defined.

(** *** The mirror on the MCP server *)

Lemma mirror_edges_recorded (L : pylib) (items : list json) :
  forall (labels : list string) (st : list Reference.mcp_call),
    comprehension (pick_label L) items = Ok labels ->
    mcp_for (M := Reference.recording_mcp) items
      (fun p =>
         mcp_bind (mcp_ret (pick_label L p)) (fun pid =>
         add_edges Reference.recording_mcp "optimization_graph"
           [(pid, "Budget"); (pid, "RiskReduction")])) st =
    (Ok tt,
     (st ++ map (fun pid => Reference.Edges "optimization_graph"
                              [(pid, "Budget"); (pid, "RiskReduction")]) labels)%list).
Proof.
  induction items as [|p items IH]; intros labels st H; cbn in H.
  - inversion H. cbn. now rewrite app_nil_r.
  - destruct (pick_label L p) as [pid|e] eqn:Ep; cbn [bind] in H; [|discriminate].
    destruct (comprehension (pick_label L) items) as [labs|e];
      cbn [bind] in H; [|discriminate].
    inversion H. cbn [mcp_for]. unfold mcp_bind at 1. unfold mcp_bind at 1.
    unfold mcp_ret at 1. rewrite Ep. cbn [add_edges Reference.recording_mcp].
    rewrite (IH labs) by reflexivity. cbn [map]. now rewrite <- app_assoc.
Qed.

(** X14.  What the MCP server is sent when every pick is an object and
    no call fails: one [create_graph], the two hubs, the labels of the
    picks in order, and then for each pick its two edges to the hubs,
    the very structure that is built with networkx.  When a pick is not
    an object, the mirror stops after the hubs. *)
Theorem mirror_call_sequence (L : pylib) (items : list json)
    (st : list Reference.mcp_call) :
  (forall labels,
      comprehension (pick_label L) items = Ok labels ->
      mcp_mirror L Reference.recording_mcp (JArr items) st =
      (Ok tt,
       (st ++ [Reference.Created "optimization_graph" "undirected";
               Reference.Nodes "optimization_graph" ["Budget"; "RiskReduction"];
               Reference.Nodes "optimization_graph" labels]
           ++ map (fun pid => Reference.Edges "optimization_graph"
                                [(pid, "Budget"); (pid, "RiskReduction")]) labels)%list))
  /\ (forall e,
        comprehension (pick_label L) items = Raise e ->
        mcp_mirror L Reference.recording_mcp (JArr items) st =
        (Raise e,
         (st ++ [Reference.Created "optimization_graph" "undirected";
                 Reference.Nodes "optimization_graph" ["Budget"; "RiskReduction"]])%list)).
Proof.
  split.
  - intros labels H. unfold mcp_mirror.
    unfold mcp_bind at 1. cbn [create_graph Reference.recording_mcp].
    unfold mcp_bind at 1. cbn [add_nodes Reference.recording_mcp].
    unfold mcp_bind at 1. unfold mcp_ret at 1. cbn [py_iter bind]. rewrite H.
    unfold mcp_bind at 1. cbn [add_nodes Reference.recording_mcp].
    unfold mcp_bind at 1. unfold mcp_ret at 1.
    rewrite (mirror_edges_recorded L items labels) by assumption.
    now rewrite <- !app_assoc.
  - intros e H. unfold mcp_mirror.
    unfold mcp_bind at 1. cbn [create_graph Reference.recording_mcp].
    unfold mcp_bind at 1. cbn [add_nodes Reference.recording_mcp].
    unfold mcp_bind at 1. unfold mcp_ret at 1. cbn [py_iter bind]. rewrite H.
    now rewrite <- !app_assoc.
Qed.

Lemma mirror_call_sequence_witness :
  mcp_mirror Reference.lib Reference.recording_mcp
    (JArr [pick_A; JObj [("cost", JInt 3)]; JObj [("id", JInt 7)]]) [] =
  (Ok tt,
   [Reference.Created "optimization_graph" "undirected";
    Reference.Nodes "optimization_graph" ["Budget"; "RiskReduction"];
    Reference.Nodes "optimization_graph" ["A"; "?"; "7"];
    Reference.Edges "optimization_graph" [("A", "Budget"); ("A", "RiskReduction")];
    Reference.Edges "optimization_graph" [("?", "Budget"); ("?", "RiskReduction")];
    Reference.Edges "optimization_graph" [("7", "Budget"); ("7", "RiskReduction")]]).
Proof.
  apply (proj1 (mirror_call_sequence Reference.lib
                  [pick_A; JObj [("cost", JInt 3)]; JObj [("id", JInt 7)]] [])
           ["A"; "?"; "7"]).
  vm_compute. reflexivity.
Defined.

(** *** What [read_input] hands to the builders *)

Lemma py_or_list (v : json) : py_or v (JArr []) = JArr [] \/ truthy (py_or v (JArr [])) = true.
Proof. unfold py_or. destruct (truthy v) eqn:E; auto. Qed.

Lemma read_input_values (L : pylib) (stdin : list byte) (picks sites : json) :
  read_input L stdin = Ok (picks, sites) ->
  (picks = JArr [] \/ truthy picks = true) /\ (sites = JArr [] \/ truthy sites = true).
Proof.
  unfold read_input. intros H.
  destruct (stdin_read L stdin) as [raw|e]; cbn [bind] in H; [|discriminate].
  unfold input_of_text in H.
  destruct (py_get _ "picks" JNull) as [p|e]; cbn [bind] in H; [|discriminate].
  destruct (py_get _ "sites" JNull) as [s|e]; cbn [bind] in H; [|discriminate].
  inversion H. split; apply py_or_list.
Qed.

Lemma chart_benefit_vs_cost_truthy (L : pylib) (picks : json) :
  truthy picks = true -> chart_benefit_vs_cost L picks <> Ok JNull.
Proof.
  intros Ht. unfold chart_benefit_vs_cost. rewrite Ht. cbn [negb].
  repeat (step; [|discriminate]).
  destruct (fig_to_data_url L _); discriminate.
Qed.

Lemma chart_risk_distribution_not_array (L : pylib) (sites : json) :
  is_array sites = false -> truthy sites = true ->
  exists e, chart_risk_distribution L sites = Raise e.
Proof.
  intros Harr Ht. unfold chart_risk_distribution. rewrite Ht. cbn [negb].
  destruct (py_iter sites) as [items|e] eqn:Ei; cbn [bind]; [|eauto].
  destruct (py_iter_not_array sites items Harr Ht Ei) as (s & rest & ->).
  cbn [filter is_none negb comprehension].
  rewrite site_risk_not_dict by reflexivity. cbn. eauto.
Qed.

(** X15.  [read_input] never hands a falsy value other than the empty
    list to the builders ([null], [false], 0, the empty string and the
    empty object all become the empty list).  So on what it returns, the
    cost/benefit builder returns [None] exactly when [picks] is the empty
    list, and the risk builder exactly when [sites] is a list that holds
    nothing but [null]s; in every other case they return a chart or
    raise. *)
Theorem builders_on_read_input (L : pylib) (stdin : list byte) (picks sites : json) :
  read_input L stdin = Ok (picks, sites) ->
  (picks = JArr [] \/ truthy picks = true)
  /\ (sites = JArr [] \/ truthy sites = true)
  /\ (chart_benefit_vs_cost L picks = Ok JNull <-> picks = JArr [])
  /\ (chart_risk_distribution L sites = Ok JNull
      <-> exists items, sites = JArr items /\ forallb is_none items = true).
Proof.
  intros H. destruct (read_input_values L stdin picks sites H) as [Hp Hs].
  split; [assumption | split; [assumption | split]].
  - split; [|now intros ->].
    intros Hnone. destruct Hp as [Hp|Hp]; [assumption|].
    now apply chart_benefit_vs_cost_truthy in Hnone.
  - split.
    + intros Hnone. destruct Hs as [->|Hs]; [now exists []|].
      destruct (is_array sites) eqn:Harr.
      2:{ destruct (chart_risk_distribution_not_array L sites Harr Hs) as [e He].
          congruence. }
      destruct sites as [| | | | |items|]; try discriminate Harr.
      exists items. split; [reflexivity|].
      now apply (chart_risk_distribution_none_iff L items).
    + intros (items & -> & Hall). now apply (chart_risk_distribution_none_iff L items).
Qed.

Lemma builders_on_read_input_witness :
  let picks := JArr [pick_A] in
  let sites := JArr [] in
  (picks = JArr [] \/ truthy picks = true)
  /\ (sites = JArr [] \/ truthy sites = true)
  /\ (chart_benefit_vs_cost Reference.lib picks = Ok JNull <-> picks = JArr [])
  /\ (chart_risk_distribution Reference.lib sites = Ok JNull
      <-> exists items, sites = JArr items /\ forallb is_none items = true).
Proof.
  apply (builders_on_read_input Reference.lib (Reference.bytes_of Reference.doc_A)).
  vm_compute. reflexivity.
Defined.

Lemma builders_accept_the_same_picks_witness :
  exists fig,
    chart_benefit_vs_cost Reference.lib (JArr [pick_A]) =
    (url <- fig_to_data_url Reference.lib fig ;; Ok (benefit_vs_cost_image url)).
Proof.
  eapply (proj2 (builders_accept_the_same_picks Reference.lib Reference.no_mcp [pick_A]) tt).
  reflexivity.
Defined.

(** *** The order of the picks *)

Lemma SF_at_least_one_antisym (a b : spec_float) :
  SFleb (S754_finite false 4503599627370496 (-52)) a = true ->
  SFleb (S754_finite false 4503599627370496 (-52)) b = true ->
  SFltb a b = false -> SFltb b a = false -> a = b.
Proof.
  unfold SFleb, SFltb.
  destruct a as [sa|sa| |sa ma ea], b as [sb|sb| |sb mb eb];
    cbn; try discriminate;
    repeat match goal with s : bool |- _ => destruct s end;
    cbn; try discriminate; try reflexivity.
  intros _ _ Hab Hba.
  destruct (Z.compare_spec ea eb) as [E|E|E].
  - subst. rewrite Z.compare_refl in Hba.
    rewrite Pos.compare_cont_spec in Hab, Hba. cbn in Hab, Hba.
    destruct (Pos.compare_spec ma mb), (Pos.compare_spec mb ma);
      try discriminate; try lia; subst; reflexivity.
  - discriminate Hab.
  - destruct (Z.compare_spec eb ea); try discriminate; lia.
Qed.

Lemma at_least_one_antisym (a b : float) :
  (1 <=? a)%float = true -> (1 <=? b)%float = true ->
  (a <? b)%float = false -> (b <? a)%float = false -> a = b.
Proof.
  rewrite !FloatAxioms.leb_spec, !FloatAxioms.ltb_spec.
  replace (Prim2SF 1) with (S754_finite false 4503599627370496 (-52))
    by (vm_compute; reflexivity).
  intros Ha Hb Hab Hba. apply Prim2SF_inj.
  now apply SF_at_least_one_antisym.
Qed.

Lemma comprehension_as_map {A B : Type} (f : A -> res B) (d : B) (l : list A)
    (ys : list B) :
  comprehension f l = Ok ys ->
  ys = map (fun x => match f x with Ok y => y | Raise _ => d end) l.
Proof.
  intros H. apply comprehension_Forall2 in H.
  induction H as [|x y l ys Hx _ IH]; cbn; [reflexivity|].
  now rewrite Hx, <- IH.
Qed.

(** X16.  The choice between a linear and a logarithmic x axis does not
    depend on the order of the picks: on a permutation of the picks the
    comprehension gives a permutation of the floored costs, and [max(xs)]
    and [min(xs)], hence the ratio that is compared with 50, are the
    same. *)
Theorem axis_scale_ignores_pick_order (L : pylib) (items items' : list json)
    (xs xs' : list float) :
  Permutation items items' ->
  comprehension (pick_x L) items = Ok xs ->
  comprehension (pick_x L) items' = Ok xs' ->
  Permutation xs xs' /\ py_max xs = py_max xs' /\ py_min xs = py_min xs'.
Proof.
  intros Hperm Hx Hx'.
  assert (Hp : Permutation xs xs').
  { rewrite (comprehension_as_map _ 1%float _ _ Hx),
      (comprehension_as_map _ 1%float _ _ Hx').
    now apply Permutation_map. }
  pose proof (plotted_floor L items xs Hx) as Hfl.
  assert (Hone : forall x, In x xs -> (1 <=? x)%float = true).
  { intros x Hin. rewrite Forall_forall in Hfl.
    destruct (Hfl x Hin) as [c ->]. apply floored_at_least_one. }
  split; [assumption|].
  destruct xs as [|x0 rest].
  { apply Permutation_nil in Hp. subst. split; reflexivity. }
  destruct xs' as [|x0' rest'].
  { apply Permutation_sym, Permutation_nil in Hp. discriminate. }
  split.
  - destruct (py_max (x0 :: rest)) as [hi|e] eqn:E; [|discriminate].
    destruct (py_max (x0' :: rest')) as [hi'|e] eqn:E'; [|discriminate].
    apply py_max_greatest in E as [Hin Hub], E' as [Hin' Hub'].
    f_equal. apply at_least_one_antisym.
    + now apply Hone.
    + apply Hone. eapply Permutation_in; [apply Permutation_sym|]; eassumption.
    + apply Hub. eapply Permutation_in; [apply Permutation_sym|]; eassumption.
    + apply Hub'. eapply Permutation_in; eassumption.
  - destruct (py_min (x0 :: rest)) as [lo|e] eqn:E; [|discriminate].
    destruct (py_min (x0' :: rest')) as [lo'|e] eqn:E'; [|discriminate].
    apply py_min_least in E as [Hin Hlb], E' as [Hin' Hlb'].
    f_equal. apply at_least_one_antisym.
    + now apply Hone.
    + apply Hone. eapply Permutation_in; [apply Permutation_sym|]; eassumption.
    + apply Hlb'. eapply Permutation_in; eassumption.
    + apply Hlb. eapply Permutation_in; [apply Permutation_sym|]; eassumption.
Qed.

Lemma axis_scale_ignores_pick_order_witness :
  Permutation [100; 1; 7000]%float [7000; 100; 1]%float
  /\ py_max [100; 1; 7000]%float = py_max [7000; 100; 1]%float
  /\ py_min [100; 1; 7000]%float = py_min [7000; 100; 1]%float.
Proof.
  apply (axis_scale_ignores_pick_order Reference.lib
           [pick_A; JObj []; JObj [("cost", JInt 7000)]]
           [JObj [("cost", JInt 7000)]; pick_A; JObj []]).
  - apply Permutation_sym, (Permutation_cons_app [pick_A; JObj []] []).
    cbn. apply Permutation_refl.
  - reflexivity.
  - reflexivity.
Defined.

(** *** Other keys of the document *)

(** X17.  The script reads nothing of the document but its [picks] and
    [sites]: two standard inputs that decode to objects which agree on
    these two keys (whatever else they hold, in whatever order) give the
    same run. *)
Theorem other_keys_are_ignored (L : pylib) (M : mcp) (stdin1 stdin2 : list byte)
    (raw1 raw2 : string) (fields1 fields2 : list (string * json)) :
  stdin_read L stdin1 = Ok raw1 -> stdin_read L stdin2 = Ok raw2 ->
  raw1 <> "" -> raw2 <> "" ->
  json_loads L raw1 = Ok (JObj fields1) ->
  json_loads L raw2 = Ok (JObj fields2) ->
  dict_get "picks" fields1 = dict_get "picks" fields2 ->
  dict_get "sites" fields1 = dict_get "sites" fields2 ->
  main L M stdin1 = main L M stdin2.
Proof.
  intros R1 R2 H1 H2 E1 E2 Hp Hs. unfold main, read_input.
  rewrite R1, R2. cbn [bind]. unfold input_of_text.
  apply String.eqb_neq in H1, H2. rewrite H1, H2, E1, E2.
  cbn [negb py_get bind]. now rewrite Hp, Hs.
Qed.

Lemma other_keys_are_ignored_witness :
  main Reference.lib Reference.no_mcp
    (Reference.bytes_of
       ("{" ++ Reference.quoted "sites" ++ ": [], " ++ Reference.quoted "note" ++ ": 1}")) =
  main Reference.lib Reference.no_mcp
    (Reference.bytes_of
       ("{" ++ Reference.quoted "budget" ++ ": 5, " ++ Reference.quoted "sites" ++ ": []}")).
Proof.
  apply (other_keys_are_ignored Reference.lib Reference.no_mcp _ _
           ("{" ++ Reference.quoted "sites" ++ ": [], " ++ Reference.quoted "note" ++ ": 1}")
           ("{" ++ Reference.quoted "budget" ++ ": 5, " ++ Reference.quoted "sites" ++ ": []}")
           [("sites", JArr []); ("note", JInt 1)]
           [("budget", JInt 5); ("sites", JArr [])]);
    try discriminate; try (vm_compute; reflexivity).
Defined.
